(** * Pharmaceutical supply-chain data tools

    A shallow embedding of [src/magentic_ui/tools/pharma_data.py]:
    [query_data_source], [discover_available_sources],
    [analyze_shipment_timeline], [compute_accountability],
    [compute_cost_analysis] and [generate_compliance_report], and of the
    dispatcher [call_tool] of [src/magentic_ui/tools/pharma_workbench.py],
    together with the fragments of the Python runtime, of [json] and of
    [pandas] that these functions rely on.

    Modelling conventions.
    - Cells of a CSV table and fields of a JSON record are scalars
      ([value]): [None], booleans, integers, floats and strings.  Floats are
      idealised as exact rationals; non-finite floats are outside the model.
    - A Python [dict] with string keys is an insertion-ordered association
      list ([dict]); documents handed to [json.dumps] are [json] trees whose
      object fields appear in the order of the dict literal of the source.
      [json.loads (json.dumps d)] is taken to be [d].
    - The file system below [data_dir] is an explicit argument
      ([directory]): the list of the [*.csv] files in the order in which
      [Path.rglob] yields them, each with the outcome of [pd.read_csv].
    - A raised exception is a value [exn]; code that may raise lives in the
      [result] monad, and every [try ... except Exception] of the source is
      a [match] on that result.
    - The decimal text that Python prints for a float is a parameter
      ([float_repr]) of the functions that format one. *)

From Stdlib Require Import ZArith QArith Qabs Qround String Ascii List Bool.
From Stdlib Require Import Permutation Sorted Lia Lqa DecimalString.
Import ListNotations.

Local Open Scope string_scope.
Local Open Scope list_scope.

(** ** Exceptions *)

Inductive exn : Type :=
| TypeError (msg : string)
| OtherError (msg : string).   (* any other exception, e.g. of [pd.read_csv] *)

(** [str(e)] *)
Definition exn_str (e : exn) : string :=
  match e with
  | TypeError msg => msg
  | OtherError msg => msg
  end.

Definition result (A : Type) : Type := (exn + A)%type.

Definition ok {A : Type} (a : A) : result A := inr a.
Definition raise {A : Type} (e : exn) : result A := inl e.

Definition bind {A B : Type} (m : result A) (k : A -> result B) : result B :=
  match m with
  | inl e => inl e
  | inr a => k a
  end.

Notation "x <- m ;; k" := (bind m (fun x => k))
  (at level 61, m at next level, right associativity).

(** ** Numbers and scalar values *)

Inductive number : Type :=
| Int (z : Z)
| Float (q : Q).

Inductive value : Type :=
| VNone
| VBool (b : bool)
| VNum (n : number)
| VStr (s : string).

Definition num_Q (n : number) : Q :=
  match n with
  | Int z => inject_Z z
  | Float q => q
  end.

(** [bool] is a subclass of [int]: [True] counts as 1 and [False] as 0. *)
Definition as_number (v : value) : option number :=
  match v with
  | VBool b => Some (Int (if b then 1 else 0))
  | VNum n => Some n
  | VNone | VStr _ => None
  end.

(** [type(v).__name__] *)
Definition type_name (v : value) : string :=
  match v with
  | VNone => "NoneType"
  | VBool _ => "bool"
  | VNum (Int _) => "int"
  | VNum (Float _) => "float"
  | VStr _ => "str"
  end.

(** [bool(v)]: [None], [False], zero and the empty string are falsy. *)
Definition truthy (v : value) : bool :=
  match v with
  | VNone => false
  | VBool b => b
  | VNum (Int z) => negb (z =? 0)%Z
  | VNum (Float q) => negb (Qnum q =? 0)%Z
  | VStr s => negb (s =? "")
  end.

Definition num_ltb (x y : number) : bool :=
  match (num_Q x ?= num_Q y)%Q with
  | Lt => true
  | _ => false
  end.

Definition num_eqb (x y : number) : bool := Qeq_bool (num_Q x) (num_Q y).

(** [a < b]: numbers (booleans included) compare by value, strings
    lexicographically; every other pairing raises [TypeError]. *)
Definition py_lt (a b : value) : result bool :=
  match a, b with
  | VStr s, VStr t => ok (s <? t)
  | _, _ =>
      match as_number a, as_number b with
      | Some x, Some y => ok (num_ltb x y)
      | _, _ =>
          raise (TypeError
                   ("'<' not supported between instances of '"
                      ++ type_name a ++ "' and '" ++ type_name b ++ "'"))
      end
  end.

(** [a == b]: numbers (booleans included) are equal by value, strings
    and [None] to themselves only. *)
Definition py_eq (a b : value) : bool :=
  match a, b with
  | VNone, VNone => true
  | VStr s, VStr t => (s =? t)
  | _, _ =>
      match as_number a, as_number b with
      | Some x, Some y => num_eqb x y
      | _, _ => false
      end
  end.

(** *** Arithmetic *)

Definition num_add (x y : number) : number :=
  match x, y with
  | Int a, Int b => Int (a + b)
  | _, _ => Float (Qred (num_Q x + num_Q y))
  end.

Definition num_neg (x : number) : number :=
  match x with
  | Int a => Int (- a)
  | Float q => Float (Qred (- q))
  end.

Definition num_mul (x y : number) : number :=
  match x, y with
  | Int a, Int b => Int (a * b)
  | _, _ => Float (Qred (num_Q x * num_Q y))
  end.

(** [x / y] is true division and always yields a float. *)
Definition num_truediv (x y : number) : number :=
  Float (Qred (num_Q x / num_Q y)).

(** [acc + v] as evaluated inside [sum]. *)
Definition py_add (acc : number) (v : value) : result number :=
  match as_number v with
  | Some n => ok (num_add acc n)
  | None =>
      raise (TypeError
               ("unsupported operand type(s) for +: '"
                  ++ type_name (VNum acc) ++ "' and '" ++ type_name v ++ "'"))
  end.

(** [sum(vs)], which starts from the integer 0. *)
Fixpoint sum_from (acc : number) (vs : list value) : result number :=
  match vs with
  | [] => ok acc
  | v :: vs' => acc' <- py_add acc v ;; sum_from acc' vs'
  end.

Definition py_sum (vs : list value) : result number := sum_from (Int 0) vs.

(** *** Rounding: [round(x, ndigits)] rounds half to even. *)

Definition round_half_even (q : Q) : Z :=
  let n := Qnum q in
  let d := Zpos (Qden q) in
  let f := (n / d)%Z in
  let r := (n mod d)%Z in
  match (2 * r ?= d)%Z with
  | Lt => f
  | Gt => (f + 1)%Z
  | Eq => if Z.even f then f else (f + 1)%Z
  end.

Definition pow10 (ndigits : nat) : Z := (10 ^ Z.of_nat ndigits)%Z.

Definition round_ndigits (q : Q) (ndigits : nat) : Q :=
  Qred (inject_Z (round_half_even (q * inject_Z (pow10 ndigits)))
        / inject_Z (pow10 ndigits)).

Definition py_round (x : number) (ndigits : nat) : number :=
  match x with
  | Int z => Int z
  | Float q => Float (round_ndigits q ndigits)
  end.

(** ** Strings *)

(** [s.endswith(suffix)] *)
Fixpoint ends_with (suffix s : string) : bool :=
  (s =? suffix) ||
  match s with
  | EmptyString => false
  | String _ s' => ends_with suffix s'
  end.

(** [sub in s] *)
Fixpoint contains (sub s : string) : bool :=
  String.prefix sub s ||
  match s with
  | EmptyString => false
  | String _ s' => contains sub s'
  end.

Definition lower_ascii (c : ascii) : ascii :=
  let n := nat_of_ascii c in
  if ((65 <=? n) && (n <=? 90))%nat then ascii_of_nat (n + 32) else c.

(** [s.lower()], on the ASCII letters. *)
Fixpoint lower (s : string) : string :=
  match s with
  | EmptyString => EmptyString
  | String c s' => String (lower_ascii c) (lower s')
  end.

(** [str(z)] for an integer. *)
Definition int_str (z : Z) : string := NilZero.string_of_int (Z.to_int z).

(** ** Dictionaries: insertion-ordered maps with string keys *)

Definition dict (V : Type) : Type := list (string * V).

Section Dict.
Context {V : Type}.

(** [d.get(k)] *)
Fixpoint dict_get (k : string) (d : dict V) : option V :=
  match d with
  | [] => None
  | (k', v) :: d' => if k' =? k then Some v else dict_get k d'
  end.

(** [k in d] *)
Definition dict_has (k : string) (d : dict V) : bool :=
  match dict_get k d with
  | Some _ => true
  | None => false
  end.

(** [d.get(k, default)] *)
Definition dict_get_default (k : string) (default : V) (d : dict V) : V :=
  match dict_get k d with
  | Some v => v
  | None => default
  end.

(** [d[k] = v]: an existing key keeps its position, a new key is
    appended. *)
Fixpoint dict_set (k : string) (v : V) (d : dict V) : dict V :=
  match d with
  | [] => [(k, v)]
  | (k', v') :: d' =>
      if k' =? k then (k', v) :: d' else (k', v') :: dict_set k v d'
  end.

Definition dict_keys (d : dict V) : list string := map fst d.
Definition dict_values (d : dict V) : list V := map snd d.
End Dict.

(** ** JSON documents *)

#[local] Unset Elimination Schemes.
Inductive json : Type :=
| JVal (v : value)
| JArr (items : list json)
| JObj (fields : dict json).
#[local] Set Elimination Schemes.

Definition jstr (s : string) : json := JVal (VStr s).
Definition jint (z : Z) : json := JVal (VNum (Int z)).
Definition jnum (n : number) : json := JVal (VNum n).

(** A record of a table: column name to cell. *)
Definition record : Type := dict value.

Definition json_of_record (r : record) : json :=
  JObj (map (fun kv => (fst kv, JVal (snd kv))) r).

(** [doc.get(k)] on a parsed document. *)
Definition jget (k : string) (doc : json) : option json :=
  match doc with
  | JObj fields => dict_get k fields
  | _ => None
  end.

(** The scalar fields of a parsed JSON object. *)
Definition record_of_json (j : json) : record :=
  match j with
  | JObj fields =>
      flat_map (fun kv => match snd kv with
                          | JVal v => [(fst kv, v)]
                          | _ => []
                          end) fields
  | _ => []
  end.

(** [doc.get("results")] read back as records; a missing or empty list
    is falsy and yields no record. *)
Definition results_of (doc : json) : list record :=
  match jget "results" doc with
  | Some (JArr items) => map record_of_json items
  | _ => []
  end.

(** ** Tables ([pandas.DataFrame]) *)

Record DataFrame : Type := {
  columns : list string;
  rows : list (list value)
}.

(** [df.to_dict('records')] *)
Definition to_dict_records (cols : list string) (rws : list (list value))
  : list record :=
  map (combine cols) rws.

(** The cell of a row under a column; a row shorter than the header is
    padded with missing cells. *)
Definition cell (cols : list string) (row : list value) (col : string)
  : value :=
  dict_get_default col VNone (combine cols row).

(** [col in df.columns] *)
Definition has_column (col : string) (cols : list string) : bool :=
  existsb (String.eqb col) cols.

(** The elementwise comparison of a column with a value: a missing cell
    ([None]) is equal to nothing. *)
Definition cell_eq (c v : value) : bool :=
  match c with
  | VNone => false
  | _ => py_eq c v
  end.

(** A filter value: a scalar (equality) or a list (membership). *)
Inductive filter_value : Type :=
| Scalar (v : value)
| Collection (vs : list value).

(** The mask [df[col] == val], respectively [df[col].isin(val)], at one
    row. *)
Definition row_matches (cols : list string) (col : string)
    (val : filter_value) (row : list value) : bool :=
  match val with
  | Scalar v => cell_eq (cell cols row col) v
  | Collection vs => existsb (cell_eq (cell cols row col)) vs
  end.

(** [df.head(n)]: the first [n] rows, or all but the last [-n] rows when
    [n] is negative. *)
Definition head {A : Type} (n : Z) (l : list A) : list A :=
  if (0 <=? n)%Z then firstn (Z.to_nat n) l
  else firstn (length l - Z.to_nat (- n)) l.

(** ** The data directory *)

(** The outcome of [pd.read_csv] on a file. *)
Inductive read_result : Type :=
| ReadError (e : exn)
| ReadOk (df : DataFrame).

Record csv_file : Type := {
  file_path : string;   (* [str(f)] *)
  stem : string;        (* [f.stem]; the file is named [stem + ".csv"] *)
  content : read_result
}.

(** [f.name] *)
Definition file_name (f : csv_file) : string := stem f ++ ".csv".

Record directory : Type := {
  dir_name : string;                  (* the [data_dir] argument *)
  listing : option (list csv_file)    (* [None]: the path does not exist *)
}.

(** [list(data_path.rglob(csv_name))] for a plain file name. *)
Definition rglob_name (csv_name : string) (files : list csv_file)
  : list csv_file :=
  filter (fun f => file_name f =? csv_name) files.

(** The candidate files of [query_data_source]: exact name first, then
    case-insensitive substring match on the stem. *)
Definition csv_name_of (source_name : string) : string :=
  if ends_with ".csv" source_name then source_name
  else source_name ++ ".csv".

Definition find_csv_files (source_name : string) (files : list csv_file)
  : list csv_file :=
  match rglob_name (csv_name_of source_name) files with
  | [] => filter (fun f => contains (lower source_name) (lower (stem f))) files
  | found => found
  end.

(** ** [query_data_source] *)

(** The filter loop: [inl col] when [col] is not a column, otherwise the
    rows that passed every filter. *)
Fixpoint apply_filters (cols : list string) (rws : list (list value))
    (filters : dict filter_value) : string + list (list value) :=
  match filters with
  | [] => inr rws
  | (col, val) :: rest =>
      if has_column col cols
      then apply_filters cols (filter (row_matches cols col val) rws) rest
      else inl col
  end.

(** [if limit: df = df.head(limit)] *)
Definition apply_limit {A : Type} (limit : option Z) (l : list A) : list A :=
  match limit with
  | Some n => if (n =? 0)%Z then l else head n l
  | None => l
  end.

Definition query_data_source (source_name : string)
    (filters : option (dict filter_value)) (data_dir : directory)
    (limit : option Z) : json :=
  match listing data_dir with
  | None =>
      JObj [("error", jstr ("Data directory not found: " ++ dir_name data_dir));
            ("results", JArr [])]
  | Some files =>
      match find_csv_files source_name files with
      | [] =>
          JObj [("error", jstr ("No CSV file found matching: " ++ source_name));
                ("searched_in", jstr (dir_name data_dir));
                ("results", JArr [])]
      | f :: _ =>
          match content f with
          | ReadError e =>
              JObj [("error",
                     jstr ("Error querying data source: " ++ exn_str e));
                    ("results", JArr [])]
          | ReadOk df =>
              let filters' :=
                match filters with Some fs => fs | None => [] end in
              match apply_filters (columns df) (rows df) filters' with
              | inl col =>
                  JObj [("error",
                         jstr ("Column '" ++ col ++ "' not found in "
                                 ++ file_name f));
                        ("available_columns", JArr (map jstr (columns df)));
                        ("results", JArr [])]
              | inr rws =>
                  let results :=
                    to_dict_records (columns df) (apply_limit limit rws) in
                  JObj [("source_file", jstr (file_path f));
                        ("total_records",
                         jint (Z.of_nat (length results)));
                        ("columns", JArr (map jstr (columns df)));
                        ("results", JArr (map json_of_record results))]
              end
          end
      end
  end.

(** ** [compute_accountability] *)

(** A timeline event: the dict with keys [timestamp], [source], [owner]
    and [data]; [ev_owner = None] is a dict without the [owner] key. *)
Record event : Type := {
  ev_timestamp : value;
  ev_source : string;
  ev_owner : option string;
  ev_data : record
}.

(** [event.get("owner", "Unknown")] *)
Definition get_owner (e : event) : string :=
  match ev_owner e with
  | Some o => o
  | None => "Unknown"
  end.

(** One turn of the counting loop:
    [owner_counts[owner] = owner_counts.get(owner, 0) + 1]. *)
Definition count_event (owner_counts : dict Z) (e : event) : dict Z :=
  let owner := get_owner e in
  dict_set owner (dict_get_default owner 0 owner_counts + 1)%Z owner_counts.

(** The counting loop over the events. *)
Definition count_owners (events : list event) : dict Z :=
  fold_left count_event events [].

(** [sum(owner_counts.values())] *)
Definition sum_values (d : dict Z) : Z :=
  fold_right Z.add 0%Z (dict_values d).

Record accountability_entry : Type := {
  contribution_pct : number;
  event_count : Z
}.

(** [round((count / total) * 100, 1)] *)
Definition percentage (count total : Z) : number :=
  py_round (num_mul (num_truediv (Int count) (Int total)) (Int 100)) 1.

Definition compute_accountability (events : list event)
  : dict accountability_entry :=
  let owner_counts := count_owners events in
  let total := sum_values owner_counts in
  if (total =? 0)%Z then []
  else
    map (fun oc =>
           (fst oc,
            {| contribution_pct := percentage (snd oc) total;
               event_count := snd oc |}))
        owner_counts.

Definition json_of_entry (a : accountability_entry) : json :=
  JObj [("contribution_pct", jnum (contribution_pct a));
        ("event_count", jint (event_count a))].

Definition json_of_accountability (acc : dict accountability_entry) : json :=
  JObj (map (fun oa => (fst oa, json_of_entry (snd oa))) acc).

(** ** [sorted(events, key=...)] *)

(** A stable sort that compares keys with [<] only; the first comparison
    that raises aborts the sort.  Which pair of incomparable keys is met
    first, and so the order of the two type names in the message of the
    [TypeError], depends on the sorting algorithm and is not meant to be
    that of CPython. *)
Section Sorted.
Context {A : Type}.
Variable key : A -> value.

Fixpoint insert_by (x : A) (l : list A) : result (list A) :=
  match l with
  | [] => ok [x]
  | y :: rest =>
      lt <- py_lt (key y) (key x) ;;
      if lt then (rest' <- insert_by x rest ;; ok (y :: rest'))
      else ok (x :: y :: rest)
  end.

Fixpoint py_sorted (l : list A) : result (list A) :=
  match l with
  | [] => ok []
  | x :: l' => s <- py_sorted l' ;; insert_by x s
  end.
End Sorted.

(** ** [compute_cost_analysis] *)

Definition shipment_filter (shipment_id : string) : dict filter_value :=
  [("shipment_id", Scalar (VStr shipment_id))].

(** The average of [total_loss_usd] over the waste records, 0 without
    history. *)
Definition average_waste (waste : list record) : result number :=
  match waste with
  | [] => ok (Int 0)
  | _ :: _ =>
      total_loss <-
        py_sum (map (dict_get_default "total_loss_usd" (VNum (Int 0))) waste) ;;
      ok (num_truediv total_loss (Int (Z.of_nat (length waste))))
  end.

Definition cost_scenarios (avg_waste : number) : json :=
  JObj [("conditional_release",
         JObj [("description", jstr "Release shipment pending QA approval");
               ("expected_waste_usd", jint 0);
               ("qa_review_cost_usd", jint 500);
               ("total_cost_usd", jint 500);
               ("probability_success", jnum (Float (85 # 100)));
               ("expected_value_usd", jint (-425))]);
        ("reject_reship",
         JObj [("description",
                jstr "Reject shipment and dispatch replacement");
               ("expected_waste_usd", jnum avg_waste);
               ("reship_logistics_cost_usd", jint 1200);
               ("total_cost_usd", jnum (num_add avg_waste (Int 1200)));
               ("probability_success", jnum (Float 1));
               ("expected_value_usd",
                jnum (num_neg (num_add avg_waste (Int 1200))))])].

Definition compute_cost_analysis (shipment_id : string)
    (data_dir : directory) : json :=
  let shipment_data :=
    query_data_source "logistics_shipments"
      (Some (shipment_filter shipment_id)) data_dir (Some 1%Z) in
  match results_of shipment_data with
  | [] =>
      JObj [("error", jstr "Shipment not found");
            ("shipment_id", jstr shipment_id)]
  | shipment :: _ =>
      let waste_data :=
        query_data_source "finance_waste_log"
          (Some [("event_type", Scalar (VStr "Quarantine"))])
          data_dir (Some 10%Z) in
      match average_waste (results_of waste_data) with
      | inl e =>
          JObj [("error",
                 jstr ("Error computing cost analysis: " ++ exn_str e));
                ("shipment_id", jstr shipment_id)]
      | inr avg_waste =>
          JObj [("shipment_id", jstr shipment_id);
                ("shipment_details", json_of_record shipment);
                ("scenarios", cost_scenarios avg_waste);
                ("historical_waste_avg_usd", jnum (py_round avg_waste 2))]
      end
  end.

(** ** [analyze_shipment_timeline] *)

Definition ts_fields : list string :=
  ["timestamp"; "dispatch_dt"; "start_ts"; "decision_dt"; "event_dt"].

(** The scan [for ts_field in [...]: if ts_field in record and
    record[ts_field]: ...; break], starting from [timestamp = None]. *)
Fixpoint scan_timestamp (fields : list string) (r : record) : value :=
  match fields with
  | [] => VNone
  | ts_field :: rest =>
      match dict_get ts_field r with
      | Some v => if truthy v then v else scan_timestamp rest r
      | None => scan_timestamp rest r
      end
  end.

Definition resolve_timestamp (r : record) : value :=
  scan_timestamp ts_fields r.

Definition sources_to_check : list string :=
  ["logistics_shipments"; "sensor_alerts"; "wms_quarantine_log";
   "wms_goods_movements"; "finance_waste_log"].

Definition json_of_event (e : event) : json :=
  JObj ([("timestamp", JVal (ev_timestamp e));
         ("source", jstr (ev_source e))]
          ++ match ev_owner e with
             | Some o => [("owner", jstr o)]
             | None => []
             end
          ++ [("data", json_of_record (ev_data e))]).

Section Timeline.
(** [repr] of a float, the decimal text that [str] and f-strings
    produce; its digits are left open. *)
Variable float_repr : Q -> string.

(** [str(v)], as an f-string formats a value. *)
Definition py_str (v : value) : string :=
  match v with
  | VNone => "None"
  | VBool true => "True"
  | VBool false => "False"
  | VNum (Int z) => int_str z
  | VNum (Float q) => float_repr q
  | VStr s => s
  end.

Definition resolve_owner (r : record) : string :=
  match dict_get "supplier_id" r with
  | Some supplier_id => "Carrier_" ++ py_str supplier_id
  | None =>
      if dict_has "decision" r then "QA_Team"
      else if dict_has "status" r
              && py_eq (dict_get_default "status" VNone r)
                       (VStr "Quarantined")
           then "QA_Team"
           else "Unknown"
  end.

Definition make_event (source_name : string) (r : record) : event :=
  {| ev_timestamp := resolve_timestamp r;
     ev_source := source_name;
     ev_owner := Some (resolve_owner r);
     ev_data := r |}.

(** The events appended by the loop over [sources_to_check], in the
    order in which they are appended. *)
Definition collect_events (shipment_id : string) (data_dir : directory)
  : list event :=
  flat_map
    (fun source_name =>
       let result_data :=
         query_data_source source_name
           (Some (shipment_filter shipment_id)) data_dir None in
       map (make_event source_name) (results_of result_data))
    sources_to_check.

(** [[e for e in events if e["timestamp"]]] *)
Definition with_timestamp (events : list event) : list event :=
  filter (fun e => truthy (ev_timestamp e)) events.

(** The sorted event list, or the exception of the sort. *)
Definition build_timeline (shipment_id : string) (data_dir : directory)
  : result (list event) :=
  py_sorted ev_timestamp (with_timestamp (collect_events shipment_id data_dir)).

Definition analyze_shipment_timeline (shipment_id : string)
    (data_dir : directory) : json :=
  match build_timeline shipment_id data_dir with
  | inr events =>
      JObj [("shipment_id", jstr shipment_id);
            ("total_events", jint (Z.of_nat (length events)));
            ("timeline", JArr (map json_of_event events));
            ("accountability",
             json_of_accountability (compute_accountability events))]
  | inl e =>
      JObj [("error", jstr ("Error building timeline: " ++ exn_str e));
            ("shipment_id", jstr shipment_id);
            ("timeline", JArr [])]
  end.

End Timeline.

(** ** Notions used to state the properties *)

(** Nested lookup [doc[k1][k2]...]. *)
Fixpoint jpath (keys : list string) (doc : json) : option json :=
  match keys with
  | [] => Some doc
  | k :: rest =>
      match jget k doc with
      | Some sub => jpath rest sub
      | None => None
      end
  end.

(** The keys of a document. *)
Definition jkeys (doc : json) : list string :=
  match doc with
  | JObj fields => dict_keys fields
  | _ => []
  end.


(** The timestamp resolution as the specification words it: the first
    column of the priority list that is present and not null. *)
Fixpoint spec_scan_non_null (fields : list string) (r : record) : value :=
  match fields with
  | [] => VNone
  | ts_field :: rest =>
      match dict_get ts_field r with
      | Some VNone | None => spec_scan_non_null rest r
      | Some v => v
      end
  end.





(** The entry reported for an owner with [count] of [total] events. *)
Definition entry_of (total count : Z) : accountability_entry :=
  {| contribution_pct := percentage count total; event_count := count |}.

(** Number of events attributed to an owner. *)
Definition count_owner (owner : string) (events : list event) : Z :=
  Z.of_nat (length (filter (fun e => get_owner e =? owner) events)).










(** The records of the shipment source that match a unit. *)
Definition shipment_records (shipment_id : string) (data_dir : directory)
  : list record :=
  results_of
    (query_data_source "logistics_shipments"
       (Some (shipment_filter shipment_id)) data_dir None).

(** ** Sample data *)

Definition sample_repr (q : Q) : string :=
  (int_str (Qnum q) ++ "/" ++ int_str (Zpos (Qden q)))%string.

Definition sample_shipments : DataFrame :=
  {| columns := ["shipment_id"; "supplier_id"; "dispatch_dt"];
     rows := [[VStr "SHP-001-1"; VStr "SUP-7"; VStr "2024-01-04T08:00"];
              [VStr "SHP-001-2"; VNum (Int 9); VStr "2024-01-04T09:00"]] |}.

Definition sample_alerts : DataFrame :=
  {| columns := ["shipment_id"; "timestamp"; "temp_c"];
     rows := [[VStr "SHP-001-1"; VStr "2024-01-05T10:00";
               VNum (Float (92 # 10))];
              [VStr "SHP-001-2"; VStr "2024-01-05T11:00";
               VNum (Float (41 # 10))]] |}.


Definition sample_waste : DataFrame :=
  {| columns := ["shipment_id"; "event_type"; "total_loss_usd"; "event_dt"];
     rows := [[VStr "SHP-000-1"; VStr "Quarantine";
               VNum (Float (10005 # 10)); VStr "2023-01-01"];
              [VStr "SHP-000-2"; VStr "Quarantine"; VNum (Int 2000);
               VStr "2023-01-02"];
              [VStr "SHP-000-2"; VStr "Delay"; VNum (Int 300);
               VStr "2023-01-02"]] |}.

Definition sample_file (path name : string) (df : DataFrame) : csv_file :=
  {| file_path := path; stem := name; content := ReadOk df |}.

Definition sample_dir : directory :=
  {| dir_name := "mock_data";
     listing :=
       Some [sample_file "mock_data/logistics/logistics_shipments.csv"
                         "logistics_shipments" sample_shipments;
             sample_file "mock_data/iot/sensor_alerts.csv"
                         "sensor_alerts" sample_alerts;
             sample_file "mock_data/finance/finance_waste_log.csv"
                         "finance_waste_log" sample_waste] |}.




Definition sample_event (ts : value) (owner : string) : event :=
  {| ev_timestamp := ts; ev_source := "sensor_alerts";
     ev_owner := Some owner; ev_data := [] |}.

Definition sample_events : list event :=
  [sample_event (VStr "2024-01-05T10:00") "Carrier_SUP-7";
   sample_event (VStr "2024-01-04T08:00") "QA_Team";
   sample_event (VStr "2024-01-06T12:00") "Carrier_SUP-7"].


(** ** [discover_available_sources] *)

Section Catalog.
(** For a file [f] below the data directory: [str(f.relative_to(data_path))],
    [f.parent.name], and the outcome of [pd.read_csv(f, nrows=1)]. *)
Variable relative_path : csv_file -> string.
Variable parent_name : csv_file -> string.
Variable read_first_row : csv_file -> read_result.

(** The entry appended for one file, by the [try] or by its [except]. *)
Definition source_entry (f : csv_file) : json :=
  match read_first_row f with
  | ReadOk df =>
      JObj [("name", jstr (stem f));
            ("path", jstr (relative_path f));
            ("category", jstr (parent_name f));
            ("columns", JArr (map jstr (columns df)));
            ("sample_record",
             match to_dict_records (columns df) (rows df) with
             | first :: _ => json_of_record first
             | [] => JObj []
             end)]
  | ReadError e =>
      JObj [("name", jstr (stem f));
            ("path", jstr (relative_path f));
            ("error", jstr ("Could not read: " ++ exn_str e))]
  end.

Definition discover_available_sources (data_dir : directory) : json :=
  match listing data_dir with
  | None =>
      JObj [("error",
             jstr ("Data directory not found: " ++ dir_name data_dir));
            ("sources", JArr [])]
  | Some csv_files =>
      let sources := map source_entry csv_files in
      JObj [("data_directory", jstr (dir_name data_dir));
            ("total_sources", jint (Z.of_nat (length sources)));
            ("sources", JArr sources)]
  end.
End Catalog.

(** ** [generate_compliance_report] *)

(** [type(j).__name__] of a parsed JSON value. *)
Definition json_type_name (j : json) : string :=
  match j with
  | JVal v => type_name v
  | JArr _ => "list"
  | JObj _ => "dict"
  end.

(** [d.get(key, default)] on a parsed JSON object. *)
Definition jget_default (key : string) (default : json) (d : json) : json :=
  match jget key d with
  | Some j => j
  | None => default
  end.

Section Report.
(** The three readings of the clock, in the order of the calls:
    [datetime.now().strftime("%Y%m%d")] and twice
    [datetime.now().isoformat()]. *)
Variable date_stamp : string.
Variable report_date : string.
Variable signoff_date : string.

(** [investigation_data.get] exists on a dict only; on any other value the
    attribute lookup raises and the [except] branch answers. *)
Definition generate_compliance_report (shipment_id : string)
    (investigation_data : json) (data_dir : directory) : json :=
  match investigation_data with
  | JObj _ =>
      JObj [("header",
             JObj [("document_id",
                    jstr ("CAPA-" ++ shipment_id ++ "-" ++ date_stamp));
                   ("document_type",
                    jstr "Supply Chain Investigation Report");
                   ("shipment_id", jstr shipment_id);
                   ("report_date", jstr report_date);
                   ("prepared_by", jstr "AI_Investigation_Agent");
                   ("status", jstr "Draft")]);
            ("investigation_summary",
             jget_default "summary" (jstr "Investigation complete")
                          investigation_data);
            ("timeline", jget_default "timeline" (JArr []) investigation_data);
            ("root_cause_analysis",
             jget_default "root_causes" (JArr []) investigation_data);
            ("accountability",
             jget_default "accountability" (JObj []) investigation_data);
            ("recommendations",
             jget_default "recommendations" (JArr []) investigation_data);
            ("corrective_actions",
             jget_default "corrective_actions" (JArr []) investigation_data);
            ("preventive_actions",
             jget_default "preventive_actions" (JArr []) investigation_data);
            ("approval_required", JVal (VBool true));
            ("signoff",
             JObj [("prepared_by",
                    JObj [("name", jstr "AI_Investigation_Agent");
                          ("date", jstr signoff_date)]);
                   ("reviewed_by",
                    JObj [("name", jstr "TBD"); ("date", JVal VNone)]);
                   ("approved_by",
                    JObj [("name", jstr "TBD"); ("date", JVal VNone)])])]
  | _ =>
      JObj [("error",
             jstr ("Error generating report: '"
                     ++ json_type_name investigation_data
                     ++ "' object has no attribute 'get'"));
            ("shipment_id", jstr shipment_id)]
  end.
End Report.

(** ** [PharmaDataWorkbench.call_tool] *)

(** [bool(j)] of a parsed JSON value. *)
Definition jtruthy (j : json) : bool :=
  match j with
  | JVal v => truthy v
  | JArr [] => false
  | JObj [] => false
  | JArr (_ :: _) => true
  | JObj (_ :: _) => true
  end.

(** The one [TextResultContent] of a tool result: a document written by
    [json.dumps] in a tool function, or a text built by the workbench. *)
Inductive text_content : Type :=
| Document (doc : json)
| Text (text : string).

Record ToolResult : Type := {
  tool_name : string;
  tool_content : text_content;
  is_error : bool
}.

Definition dquote : string := String (ascii_of_nat 34) EmptyString.

(** The text [{"error": "<msg>"}] of the f-strings of [call_tool]. *)
Definition error_text (msg : string) : string :=
  "{" ++ dquote ++ "error" ++ dquote ++ ": " ++ dquote ++ msg ++ dquote
      ++ "}".

(** The names of [_tool_schemas] with their [required] arguments. *)
Definition tool_required : list (string * list string) :=
  [("discover_available_sources", []);
   ("query_data_source", ["source_name"]);
   ("analyze_shipment_timeline", ["shipment_id"]);
   ("compute_cost_analysis", ["shipment_id"]);
   ("generate_compliance_report", ["shipment_id"; "investigation_data"])].

(** Arguments as the tool functions are typed.  A value outside these
    types ([None] below) is outside the model. *)
Fixpoint scalars_of_json (items : list json) : option (list value) :=
  match items with
  | [] => Some []
  | JVal v :: rest =>
      match scalars_of_json rest with
      | Some vs => Some (v :: vs)
      | None => None
      end
  | _ :: _ => None
  end.

Definition filter_of_json (j : json) : option filter_value :=
  match j with
  | JVal v => Some (Scalar v)
  | JArr items =>
      match scalars_of_json items with
      | Some vs => Some (Collection vs)
      | None => None
      end
  | JObj _ => None
  end.

Fixpoint filters_of_fields (fields : dict json)
  : option (dict filter_value) :=
  match fields with
  | [] => Some []
  | (col, j) :: rest =>
      match filter_of_json j, filters_of_fields rest with
      | Some val, Some filters => Some ((col, val) :: filters)
      | _, _ => None
      end
  end.

(** [arguments.get("filters")]: a falsy value filters nothing, like
    [None]; an object is the filter mapping. *)
Definition filters_argument (arg : option json)
  : option (option (dict filter_value)) :=
  match arg with
  | None => Some None
  | Some j =>
      if jtruthy j then
        match j with
        | JObj fields =>
            match filters_of_fields fields with
            | Some filters => Some (Some filters)
            | None => None
            end
        | _ => None
        end
      else Some None
  end.

(** [arguments.get("limit")]: a falsy value limits nothing, like
    [None]; an integer is the limit. *)
Definition limit_argument (arg : option json) : option (option Z) :=
  match arg with
  | None => Some None
  | Some j =>
      if jtruthy j then
        match j with
        | JVal (VNum (Int n)) => Some (Some n)
        | _ => None
        end
      else Some None
  end.

Section Workbench.
Variable relative_path : csv_file -> string.
Variable parent_name : csv_file -> string.
Variable read_first_row : csv_file -> read_result.
Variable float_repr : Q -> string.
Variable date_stamp : string.
Variable report_date : string.
Variable signoff_date : string.
(** [self.data_dir] *)
Variable data_dir : directory.

(** [ToolResult(name=name, result=[TextResultContent(content=result)])] *)
Definition tool_returns (name : string) (doc : json) : option ToolResult :=
  Some {| tool_name := name; tool_content := Document doc;
          is_error := false |}.

(** [ToolResult(name=name, result=[error_content], is_error=True)] *)
Definition tool_fails (name msg : string) : option ToolResult :=
  Some {| tool_name := name; tool_content := Text (error_text msg);
          is_error := true |}.

(** The [KeyError] of [arguments[key]], turned into a result by the
    [except] of [call_tool]; [str(KeyError(key))] is the quoted key. *)
Definition key_error (name key : string) : option ToolResult :=
  tool_fails name ("'" ++ key ++ "'").

Definition call_tool (name : string) (arguments : option (dict json))
  : option ToolResult :=
  let arguments := match arguments with Some a => a | None => [] end in
  if name =? "discover_available_sources" then
    tool_returns name
      (discover_available_sources relative_path parent_name read_first_row
         data_dir)
  else if name =? "query_data_source" then
    match dict_get "source_name" arguments with
    | None => tool_fails name "source_name is required"
    | Some source_name =>
        if jtruthy source_name then
          match source_name,
                filters_argument (dict_get "filters" arguments),
                limit_argument (dict_get "limit" arguments) with
          | JVal (VStr s), Some filters, Some limit =>
              tool_returns name (query_data_source s filters data_dir limit)
          | _, _, _ => None
          end
        else tool_fails name "source_name is required"
    end
  else if name =? "analyze_shipment_timeline" then
    match dict_get "shipment_id" arguments with
    | None => key_error name "shipment_id"
    | Some (JVal (VStr shipment_id)) =>
        tool_returns name
          (analyze_shipment_timeline float_repr shipment_id data_dir)
    | Some _ => None
    end
  else if name =? "compute_cost_analysis" then
    match dict_get "shipment_id" arguments with
    | None => key_error name "shipment_id"
    | Some (JVal (VStr shipment_id)) =>
        tool_returns name (compute_cost_analysis shipment_id data_dir)
    | Some _ => None
    end
  else if name =? "generate_compliance_report" then
    match dict_get "shipment_id" arguments with
    | None => key_error name "shipment_id"
    | Some shipment_id =>
        match dict_get "investigation_data" arguments with
        | None => key_error name "investigation_data"
        | Some investigation_data =>
            match shipment_id with
            | JVal (VStr s) =>
                tool_returns name
                  (generate_compliance_report date_stamp report_date
                     signoff_date s investigation_data data_dir)
            | _ => None
            end
        end
    end
  else tool_fails name ("Unknown tool: " ++ name).
End Workbench.

(** ** Further notions used to state properties *)

(** A row passes every filter of a mapping. *)
Definition passes_filters (cols : list string) (filters : dict filter_value)
    (row : list value) : bool :=
  forallb (fun cv => row_matches cols (fst cv) (snd cv) row) filters.

(** Every key of a filter mapping is a column. *)
Definition known_filters (cols : list string) (filters : dict filter_value)
  : bool :=
  forallb (fun cv => has_column (fst cv) cols) filters.

(** Sum of the reported event counts. *)
Definition sum_event_count (acc : dict accountability_entry) : Z :=
  fold_right (fun oa s => (event_count (snd oa) + s)%Z) 0%Z acc.



(** The keys of the findings that the report reads. *)
Definition report_keys : list string :=
  ["summary"; "timeline"; "root_causes"; "accountability";
   "recommendations"; "corrective_actions"; "preventive_actions"].

(** The document of a timeline without events. *)
Definition empty_timeline (shipment_id : string) : json :=
  JObj [("shipment_id", jstr shipment_id);
        ("total_events", jint 0);
        ("timeline", JArr []);
        ("accountability", JObj [])].

(** ** Further sample data *)

Definition sample_relative_path (f : csv_file) : string :=
  (stem f ++ ".csv")%string.

Definition sample_parent_name (f : csv_file) : string := "mock_data".

Definition sample_read_first_row (f : csv_file) : read_result :=
  match content f with
  | ReadOk df => ReadOk {| columns := columns df; rows := firstn 1 (rows df) |}
  | ReadError e => ReadError e
  end.

(** A directory with one file that cannot be parsed. *)
Definition sample_dir_broken : directory :=
  {| dir_name := "mock_data";
     listing :=
       Some [sample_file "mock_data/iot/sensor_alerts.csv"
                         "sensor_alerts" sample_alerts;
             {| file_path := "mock_data/iot/broken.csv";
                stem := "broken";
                content :=
                  ReadError (OtherError "No columns to parse from file") |};
             sample_file "mock_data/finance/finance_waste_log.csv"
                         "finance_waste_log" sample_waste] |}.

(** A directory that does not exist. *)
Definition sample_dir_missing : directory :=
  {| dir_name := "no_such_dir"; listing := None |}.



(** Alerts whose timestamps are numbers, next to shipments whose
    timestamps are strings. *)
Definition sample_alerts_epoch : DataFrame :=
  {| columns := ["shipment_id"; "timestamp"];
     rows := [[VStr "SHP-001-1"; VNum (Int 1704448800)]] |}.

Definition sample_dir_mixed : directory :=
  {| dir_name := "mock_data";
     listing :=
       Some [sample_file "mock_data/logistics/logistics_shipments.csv"
                         "logistics_shipments" sample_shipments;
             sample_file "mock_data/iot/sensor_alerts.csv"
                         "sensor_alerts" sample_alerts_epoch] |}.

(** The workbench over the sample directory. *)
Definition sample_call_tool
  : string -> option (dict json) -> option ToolResult :=
  call_tool sample_relative_path sample_parent_name sample_read_first_row
    sample_repr "20240105" "2024-01-05T10:00:00" "2024-01-05T10:00:01"
    sample_dir.

(** * Properties *)

(** ** Documents and records *)

Lemma record_of_json_of_record (r : record) :
  record_of_json (json_of_record r) = r.
Proof.
  unfold record_of_json, json_of_record.
  induction r as [| [k v] r IH]; simpl; [reflexivity |].
  now rewrite IH.
Qed.

Lemma records_roundtrip (rs : list record) :
  map record_of_json (map json_of_record rs) = rs.
Proof.
  induction rs as [| r rs IH]; cbn [map]; [reflexivity |].
  now rewrite record_of_json_of_record, IH.
Qed.

Lemma head_map {A B : Type} (f : A -> B) (n : Z) (l : list A) :
  head n (map f l) = map f (head n l).
Proof.
  unfold head. rewrite length_map.
  destruct (0 <=? n)%Z; apply firstn_map.
Qed.

Lemma apply_limit_map {A B : Type} (f : A -> B) (limit : option Z)
    (l : list A) :
  apply_limit limit (map f l) = map f (apply_limit limit l).
Proof.
  destruct limit as [n |]; simpl; [| reflexivity].
  destruct (n =? 0)%Z; [reflexivity | apply head_map].
Qed.

Lemma apply_limit_nil {A : Type} (limit : option Z) :
  apply_limit limit (@nil A) = [].
Proof.
  destruct limit as [n |]; simpl; [| reflexivity].
  destruct (n =? 0)%Z; [reflexivity |].
  unfold head. destruct (0 <=? n)%Z; simpl; [apply firstn_nil | reflexivity].
Qed.

Lemma head_length {A : Type} (n : Z) (l : list A) :
  (0 <= n)%Z -> (length (head n l) <= Z.to_nat n)%nat.
Proof.
  intros Hn. unfold head.
  destruct (0 <=? n)%Z eqn:E; [apply firstn_le_length | lia].
Qed.

(** ** [query_data_source] *)

(** The outcome of a query on a source that resolves and loads. *)
Lemma query_loaded (source_name : string) (filters : dict filter_value)
    (data_dir : directory) (limit : option Z)
    (files rest : list csv_file) (f : csv_file) (df : DataFrame) :
  listing data_dir = Some files ->
  find_csv_files source_name files = f :: rest ->
  content f = ReadOk df ->
  query_data_source source_name (Some filters) data_dir limit =
  match apply_filters (columns df) (rows df) filters with
  | inl col =>
      JObj [("error",
             jstr ("Column '" ++ col ++ "' not found in " ++ file_name f));
            ("available_columns", JArr (map jstr (columns df)));
            ("results", JArr [])]
  | inr rws =>
      let results := to_dict_records (columns df) (apply_limit limit rws) in
      JObj [("source_file", jstr (file_path f));
            ("total_records", jint (Z.of_nat (length results)));
            ("columns", JArr (map jstr (columns df)));
            ("results", JArr (map json_of_record results))]
  end.
Proof.
  intros Hdir Hfind Hread. unfold query_data_source.
  now rewrite Hdir, Hfind, Hread.
Qed.

(** The limit only cuts the records of the unlimited query. *)
Lemma results_of_query_limit (source_name : string)
    (filters : option (dict filter_value)) (data_dir : directory)
    (limit : option Z) :
  results_of (query_data_source source_name filters data_dir limit) =
  apply_limit limit
    (results_of (query_data_source source_name filters data_dir None)).
Proof.
  unfold query_data_source.
  destruct (listing data_dir) as [files |];
    [| symmetry; apply apply_limit_nil].
  destruct (find_csv_files source_name files) as [| f rest];
    [symmetry; apply apply_limit_nil |].
  destruct (content f) as [e | df]; [symmetry; apply apply_limit_nil |].
  destruct (apply_filters _ _ _) as [col | rws];
    [symmetry; apply apply_limit_nil |].
  cbn [results_of jget dict_get String.eqb Ascii.eqb Bool.eqb].
  rewrite !records_roundtrip. unfold to_dict_records.
  now rewrite apply_limit_map.
Qed.

(** A filter key outside the schema stops the filter loop. *)
Lemma apply_filters_unknown (cols : list string)
    (filters : dict filter_value) :
  forall rws : list (list value),
    (exists key, In key (dict_keys filters) /\ has_column key cols = false) ->
    exists col,
      In col (dict_keys filters) /\ has_column col cols = false /\
      apply_filters cols rws filters = inl col.
Proof.
  induction filters as [| [k v] rest IH]; intros rws [key [Hin Hcol]].
  - destruct Hin.
  - simpl. destruct (has_column k cols) eqn:Hk.
    + simpl in Hin. destruct Hin as [Heq | Hin]; [subst; congruence |].
      destruct (IH (filter (row_matches cols k v) rws)) as [c [H1 [H2 H3]]].
      * exists key. now split.
      * exists c. repeat split; [now right | assumption | assumption].
    + exists k. repeat split; [now left | assumption].
Qed.

(** C3. When the source resolves and loads, a filter mapping with a key
    that is not a column of the table makes [query_data_source] return the
    error document that names the first such key and lists the available
    columns; its result list is empty and it carries none of the fields of
    a successful answer. *)
Theorem query_unknown_column (source_name : string)
    (filters : dict filter_value) (data_dir : directory) (limit : option Z)
    (files rest : list csv_file) (f : csv_file) (df : DataFrame) :
  listing data_dir = Some files ->
  find_csv_files source_name files = f :: rest ->
  content f = ReadOk df ->
  (exists key,
      In key (dict_keys filters) /\ has_column key (columns df) = false) ->
  exists col,
    In col (dict_keys filters) /\ has_column col (columns df) = false /\
    query_data_source source_name (Some filters) data_dir limit =
      JObj [("error",
             jstr ("Column '" ++ col ++ "' not found in " ++ file_name f));
            ("available_columns", JArr (map jstr (columns df)));
            ("results", JArr [])] /\
    results_of (query_data_source source_name (Some filters) data_dir limit)
      = [] /\
    jget "source_file"
      (query_data_source source_name (Some filters) data_dir limit) = None /\
    jget "total_records"
      (query_data_source source_name (Some filters) data_dir limit) = None.
Proof.
  intros Hdir Hfind Hread Hkey.
  destruct (apply_filters_unknown (columns df) filters (rows df) Hkey)
    as [col [Hin [Hcol Happly]]].
  exists col. split; [exact Hin |]. split; [exact Hcol |].
  rewrite (query_loaded _ _ _ limit _ _ _ _ Hdir Hfind Hread), Happly.
  repeat split.
Qed.

Lemma query_unknown_column_witness :
  exists col,
    In col ["shipment_id"; "shipment"] /\
    has_column col (columns sample_alerts) = false /\
    query_data_source "sensor_alerts"
      (Some [("shipment_id", Scalar (VStr "SHP-001-1"));
             ("shipment", Scalar (VStr "SHP-001-1"))])
      sample_dir (Some 10%Z) =
      JObj [("error",
             jstr ("Column '" ++ col ++ "' not found in "
                     ++ "sensor_alerts.csv"));
            ("available_columns", JArr (map jstr (columns sample_alerts)));
            ("results", JArr [])].
Proof.
  destruct (query_unknown_column "sensor_alerts"
              [("shipment_id", Scalar (VStr "SHP-001-1"));
               ("shipment", Scalar (VStr "SHP-001-1"))]
              sample_dir (Some 10%Z) _ _ _ sample_alerts
              eq_refl eq_refl eq_refl)
    as [col [Hin [Hcol [Hdoc _]]]].
  - exists "shipment". split; [simpl; auto | reflexivity].
  - exists col. repeat split; assumption.
Defined.

(** C10 as stated fails: with the limit -1, which is not positive, the
    two alerts of the sample directory are cut down to the first one. *)
Lemma query_negative_limit_truncates :
  ~ (0 < -1)%Z /\
  length (results_of
            (query_data_source "sensor_alerts" None sample_dir None)) = 2%nat /\
  results_of (query_data_source "sensor_alerts" None sample_dir (Some (-1)%Z))
  = [[("shipment_id", VStr "SHP-001-1");
      ("timestamp", VStr "2024-01-05T10:00");
      ("temp_c", VNum (Float (92 # 10)))]].
Proof.
  split; [lia |]. split; reflexivity.
Qed.

(** C10, amended. A limit of 0 gives the same document as no limit, with
    every filtered row; a positive limit keeps the first [limit] rows of
    the filtered order; a negative limit keeps all but the last [-limit]
    rows. *)
Theorem query_limit_semantics (source_name : string)
    (filters : option (dict filter_value)) (data_dir : directory)
    (limit : Z) :
  let unlimited :=
    results_of (query_data_source source_name filters data_dir None) in
  query_data_source source_name filters data_dir (Some 0%Z) =
  query_data_source source_name filters data_dir None /\
  results_of (query_data_source source_name filters data_dir (Some limit)) =
  if (limit =? 0)%Z then unlimited
  else if (0 <? limit)%Z then firstn (Z.to_nat limit) unlimited
  else firstn (length unlimited - Z.to_nat (- limit)) unlimited.
Proof.
  intros unlimited. split; [reflexivity |].
  rewrite results_of_query_limit. fold unlimited.
  unfold apply_limit, head.
  destruct (limit =? 0)%Z eqn:E0; [reflexivity |].
  destruct (0 <? limit)%Z eqn:E1, (0 <=? limit)%Z eqn:E2;
    try reflexivity; lia.
Qed.

(** ** [compute_cost_analysis] *)

(** C9. A unit without any matching record in the shipment source gets
    the error document, which holds the unit identifier and nothing
    else: no scenario, no shipment detail, no waste average. *)
Theorem cost_analysis_unit_not_found (shipment_id : string)
    (data_dir : directory) :
  shipment_records shipment_id data_dir = [] ->
  compute_cost_analysis shipment_id data_dir =
    JObj [("error", jstr "Shipment not found");
          ("shipment_id", jstr shipment_id)] /\
  jget "scenarios" (compute_cost_analysis shipment_id data_dir) = None /\
  jkeys (compute_cost_analysis shipment_id data_dir)
    = ["error"; "shipment_id"].
Proof.
  intros Hnone. unfold compute_cost_analysis.
  rewrite results_of_query_limit. fold (shipment_records shipment_id data_dir).
  rewrite Hnone. repeat split.
Qed.

Lemma cost_analysis_unit_not_found_witness :
  compute_cost_analysis "SHP-404" sample_dir =
    JObj [("error", jstr "Shipment not found");
          ("shipment_id", jstr "SHP-404")].
Proof.
  apply (cost_analysis_unit_not_found "SHP-404" sample_dir). reflexivity.
Defined.

(** C1 as stated fails: the expected value of [conditional_release] is
    -425, not the negated total cost -500. *)
Lemma conditional_release_not_minus_cost :
  jpath ["scenarios"; "conditional_release"; "total_cost_usd"]
    (compute_cost_analysis "SHP-001-1" sample_dir) = Some (jint 500) /\
  jpath ["scenarios"; "conditional_release"; "expected_value_usd"]
    (compute_cost_analysis "SHP-001-1" sample_dir) = Some (jint (-425)) /\
  jint (-425) <> jnum (num_neg (Int 500)).
Proof.
  repeat split; try reflexivity. discriminate.
Qed.

(** C1, amended. Every successful analysis has the same
    [conditional_release] scenario: QA review cost 500, expected waste 0,
    total cost 500, success probability 0.85 and expected value -425,
    which is the negated total cost weighted by the probability. *)
Theorem conditional_release_fixed (shipment_id : string)
    (data_dir : directory) :
  jget "error" (compute_cost_analysis shipment_id data_dir) = None ->
  jpath ["scenarios"; "conditional_release"]
    (compute_cost_analysis shipment_id data_dir) =
    Some (JObj [("description", jstr "Release shipment pending QA approval");
                ("expected_waste_usd", jint 0);
                ("qa_review_cost_usd", jint 500);
                ("total_cost_usd", jint 500);
                ("probability_success", jnum (Float (85 # 100)));
                ("expected_value_usd", jint (-425))]) /\
  num_eqb (Int (-425))
          (num_neg (num_mul (Int 500) (Float (85 # 100)))) = true.
Proof.
  intros Hok. split; [| reflexivity].
  unfold compute_cost_analysis in *.
  destruct (results_of _) as [| shipment rest]; [discriminate Hok |].
  destruct (average_waste _) as [e | avg_waste]; [discriminate Hok |].
  reflexivity.
Qed.

Lemma conditional_release_fixed_witness :
  jpath ["scenarios"; "conditional_release"; "expected_value_usd"]
    (compute_cost_analysis "SHP-001-1" sample_dir) = Some (jint (-425)).
Proof.
  pose proof (conditional_release_fixed "SHP-001-1" sample_dir eq_refl)
    as [Hscenario _].
  cbn [jpath] in *.
  destruct (jget "scenarios" _) as [scenarios |]; [| discriminate].
  destruct (jget "conditional_release" scenarios) as [rel |];
    [| discriminate].
  injection Hscenario as ->. reflexivity.
Defined.





Lemma In_firstn {A : Type} (x : A) (n : nat) :
  forall l : list A, In x (firstn n l) -> In x l.
Proof.
  induction n as [| n IH]; intros [| y l]; simpl; try tauto.
  intros [-> | Hin]; [now left | right; now apply IH].
Qed.

(** A cell equal to a string holds that string. *)
Lemma cell_eq_string (col s : string) (r : record) :
  cell_eq (dict_get_default col VNone r) (VStr s) = true ->
  dict_get col r = Some (VStr s).
Proof.
  unfold dict_get_default.
  destruct (dict_get col r) as [[| b | n | t] |]; simpl;
    try discriminate.
  intros Heq. apply String.eqb_eq in Heq. now subst.
Qed.

(** Every record of a successful single-filter query passes the filter. *)
Lemma query_results_match (source_name col : string) (v : value)
    (data_dir : directory) (limit : option Z) (r : record) :
  In r (results_of
          (query_data_source source_name (Some [(col, Scalar v)])
             data_dir limit)) ->
  cell_eq (dict_get_default col VNone r) v = true.
Proof.
  rewrite results_of_query_limit. intros Hin.
  assert (Hall : In r (results_of
                         (query_data_source source_name
                            (Some [(col, Scalar v)]) data_dir None))).
  { revert Hin. generalize (results_of
                              (query_data_source source_name
                                 (Some [(col, Scalar v)]) data_dir None)).
    intros l. destruct limit as [n |]; simpl; [| trivial].
    destruct (n =? 0)%Z; [trivial |]. unfold head.
    destruct (0 <=? n)%Z; apply In_firstn. }
  clear Hin. revert Hall. unfold query_data_source.
  destruct (listing data_dir) as [files |]; [| intros []].
  destruct (find_csv_files source_name files) as [| f rest]; [intros [] |].
  destruct (content f) as [e | df]; [intros [] |].
  cbn [apply_filters]. destruct (has_column col (columns df)); [| intros []].
  cbn [results_of jget dict_get String.eqb Ascii.eqb Bool.eqb apply_limit].
  rewrite records_roundtrip. unfold to_dict_records.
  rewrite in_map_iff. intros [row [<- Hrow]].
  apply filter_In in Hrow. destruct Hrow as [_ Hmatch]. exact Hmatch.
Qed.



(** ** Rounding *)







(** ** [compute_accountability] *)


Lemma dict_get_set {V : Type} (k k' : string) (v : V) (d : dict V) :
  dict_get k (dict_set k' v d) = if k' =? k then Some v else dict_get k d.
Proof.
  induction d as [| [k0 v0] d IH]; simpl; [reflexivity |].
  destruct (k0 =? k') eqn:E0; simpl.
  - apply String.eqb_eq in E0. subst k0.
    destruct (k' =? k); reflexivity.
  - rewrite IH. destruct (k0 =? k) eqn:E1; [| reflexivity].
    apply String.eqb_eq in E1. subst k0. now rewrite String.eqb_sym, E0.
Qed.

Lemma sum_values_set (k : string) (v : Z) (d : dict Z) :
  sum_values (dict_set k v d) = (sum_values d - dict_get_default k 0 d + v)%Z.
Proof.
  unfold sum_values, dict_values, dict_get_default.
  induction d as [| [k0 v0] d IH]; simpl; [lia |].
  destruct (k0 =? k) eqn:E0; simpl; [lia |].
  rewrite IH. destruct (dict_get k d); lia.
Qed.





Lemma count_owner_cons (o : string) (e : event) (es : list event) :
  count_owner o (e :: es) =
  ((if (get_owner e =? o)%string then 1 else 0) + count_owner o es)%Z.
Proof.
  unfold count_owner. cbn [filter].
  destruct (get_owner e =? o); cbn [length]; lia.
Qed.

Lemma count_owner_nonneg (o : string) (es : list event) :
  (0 <= count_owner o es)%Z.
Proof. unfold count_owner. lia. Qed.

Lemma fold_count_get (o : string) (es : list event) :
  forall d : dict Z,
    dict_get o (fold_left count_event es d) =
    match dict_get o d with
    | Some c => Some (c + count_owner o es)%Z
    | None => if (count_owner o es =? 0)%Z then None
              else Some (count_owner o es)
    end.
Proof.
  induction es as [| e es IH]; intros d; simpl.
  - unfold count_owner. simpl.
    destruct (dict_get o d); [f_equal; lia | reflexivity].
  - rewrite IH. unfold count_event. rewrite dict_get_set, count_owner_cons.
    pose proof (count_owner_nonneg o es) as Hpos.
    unfold dict_get_default.
    destruct (get_owner e =? o) eqn:E.
    + apply String.eqb_eq in E. rewrite E.
      destruct (dict_get o d) as [c |].
      * f_equal; lia.
      * destruct (1 + count_owner o es =? 0)%Z eqn:E1; [lia |]. f_equal; lia.
    + destruct (dict_get o d); reflexivity.
Qed.

Lemma count_owners_get (o : string) (es : list event) :
  dict_get o (count_owners es) =
  if (count_owner o es =? 0)%Z then None else Some (count_owner o es).
Proof. unfold count_owners. now rewrite fold_count_get. Qed.

Lemma fold_count_sum (es : list event) :
  forall d : dict Z,
    sum_values (fold_left count_event es d) =
    (sum_values d + Z.of_nat (length es))%Z.
Proof.
  induction es as [| e es IH]; intros d; simpl length; simpl fold_left; [lia |].
  rewrite IH. unfold count_event. rewrite sum_values_set. lia.
Qed.

Lemma count_owners_sum (es : list event) :
  sum_values (count_owners es) = Z.of_nat (length es).
Proof. unfold count_owners. now rewrite fold_count_sum. Qed.





Lemma compute_accountability_unfold (events : list event) :
  compute_accountability events =
  if (Z.of_nat (length events) =? 0)%Z then []
  else map (fun oc => (fst oc, entry_of (Z.of_nat (length events)) (snd oc)))
           (count_owners events).
Proof.
  unfold compute_accountability. rewrite count_owners_sum. reflexivity.
Qed.

Lemma dict_get_map {V W : Type} (g : V -> W) (k : string) (d : dict V) :
  dict_get k (map (fun kv => (fst kv, g (snd kv))) d) =
  option_map g (dict_get k d).
Proof.
  induction d as [| [k0 v0] d IH]; simpl; [reflexivity |].
  destruct (k0 =? k); [reflexivity | exact IH].
Qed.



Lemma compute_accountability_get (o : string) (events : list event) :
  dict_get o (compute_accountability events) =
  if (count_owner o events =? 0)%Z then None
  else Some (entry_of (Z.of_nat (length events)) (count_owner o events)).
Proof.
  rewrite compute_accountability_unfold.
  destruct (Z.of_nat (length events) =? 0)%Z eqn:E.
  - destruct events; [reflexivity | simpl in E; lia].
  - rewrite dict_get_map, count_owners_get.
    destruct (count_owner o events =? 0)%Z; reflexivity.
Qed.





(** ** Timestamp and owner resolution *)





(** On records whose candidate columns hold no falsy value other than
    null, the resolution agrees with the wording of the specification. *)
Lemma scan_timestamp_agrees (r : record) (fields : list string) :
  (forall ts_field v,
      In ts_field fields -> dict_get ts_field r = Some v ->
      v = VNone \/ truthy v = true) ->
  scan_timestamp fields r = spec_scan_non_null fields r.
Proof.
  induction fields as [| ts_field rest IH]; intros Hclean; simpl;
    [reflexivity |].
  destruct (dict_get ts_field r) as [v |] eqn:Hget.
  - destruct (Hclean ts_field v (or_introl eq_refl) Hget) as [-> | Hv].
    + simpl. apply IH. intros f w Hf. apply Hclean. now right.
    + rewrite Hv. destruct v; try reflexivity. discriminate Hv.
  - apply IH. intros f w Hf. apply Hclean. now right.
Qed.


(** ** The order on sort keys *)

Lemma ascii_compare_refl (a : ascii) : Ascii.compare a a = Eq.
Proof. unfold Ascii.compare. apply N.compare_refl. Qed.


Lemma string_compare_refl (s : string) : String.compare s s = Eq.
Proof.
  induction s as [| a s IH]; simpl; [reflexivity |].
  now rewrite ascii_compare_refl.
Qed.














(** ** The sort *)

Section SortedFacts.
Context {A : Type}.
Variable key : A -> value.

Lemma insert_by_perm (x : A) (l : list A) :
  forall l', insert_by key x l = ok l' -> Permutation (x :: l) l'.
Proof.
  induction l as [| y l IH]; intros l' H; simpl in H.
  - injection H as <-. apply Permutation_refl.
  - destruct (py_lt (key y) (key x)) as [e | [|]]; simpl in H;
      try discriminate H.
    + destruct (insert_by key x l) as [e | rest'] eqn:Hins; simpl in H;
        [discriminate H |].
      injection H as <-. rewrite perm_swap. apply perm_skip. now apply IH.
    + injection H as <-. apply Permutation_refl.
Qed.

Lemma py_sorted_perm (l : list A) :
  forall l', py_sorted key l = ok l' -> Permutation l l'.
Proof.
  induction l as [| x l IH]; intros l' H; simpl in H.
  - injection H as <-. apply perm_nil.
  - destruct (py_sorted key l) as [e | s]; simpl in H; [discriminate H |].
    apply insert_by_perm in H. rewrite <- H. apply perm_skip. now apply IH.
Qed.




End SortedFacts.

(** ** [analyze_shipment_timeline] *)

Section TimelineFacts.
Variable float_repr : Q -> string.

Lemma analyze_timeline_cases (shipment_id : string) (data_dir : directory) :
  (exists events,
      build_timeline float_repr shipment_id data_dir = ok events /\
      analyze_shipment_timeline float_repr shipment_id data_dir =
        JObj [("shipment_id", jstr shipment_id);
              ("total_events", jint (Z.of_nat (length events)));
              ("timeline", JArr (map json_of_event events));
              ("accountability",
               json_of_accountability (compute_accountability events))]) \/
  (exists e,
      build_timeline float_repr shipment_id data_dir = raise e /\
      analyze_shipment_timeline float_repr shipment_id data_dir =
        JObj [("error", jstr ("Error building timeline: " ++ exn_str e));
              ("shipment_id", jstr shipment_id);
              ("timeline", JArr [])]).
Proof.
  unfold analyze_shipment_timeline.
  destruct (build_timeline float_repr shipment_id data_dir) as [e | events];
    [right | left]; eauto.
Qed.





End TimelineFacts.




(** ** Worked examples *)

(** The example of the specification: filtering the alerts by a shipment
    returns exactly the one matching record. *)
Example query_first_alert :
  results_of
    (query_data_source "sensor_alerts"
       (Some [("shipment_id", Scalar (VStr "SHP-001-1"))]) sample_dir None)
  = [[("shipment_id", VStr "SHP-001-1");
      ("timestamp", VStr "2024-01-05T10:00");
      ("temp_c", VNum (Float (92 # 10)))]].
Proof. reflexivity. Qed.

(** A source name is also found by a case-insensitive part of its stem. *)
Example query_partial_name :
  jget "source_file" (query_data_source "WASTE" None sample_dir None)
  = Some (jstr "mock_data/finance/finance_waste_log.csv").
Proof. reflexivity. Qed.

(** Sorting puts the events in the order of their timestamps. *)
Example sorted_sample_events :
  py_sorted ev_timestamp sample_events =
  ok [sample_event (VStr "2024-01-04T08:00") "QA_Team";
      sample_event (VStr "2024-01-05T10:00") "Carrier_SUP-7";
      sample_event (VStr "2024-01-06T12:00") "Carrier_SUP-7"].
Proof. reflexivity. Qed.

(** Timestamps of both kinds cannot be sorted. *)
Example sorted_mixed_keys_raises :
  py_sorted ev_timestamp
    [sample_event (VStr "2024-01-04T08:00") "QA_Team";
     sample_event (VNum (Int 1704355200)) "QA_Team"]
  = raise (TypeError
             "'<' not supported between instances of 'int' and 'str'").
Proof. reflexivity. Qed.

(** Two of three events: 66.7 percent; one of three: 33.3 percent. *)
Example accountability_sample_events :
  compute_accountability sample_events =
  [("Carrier_SUP-7", {| contribution_pct := Float (667 # 10);
                        event_count := 2 |});
   ("QA_Team", {| contribution_pct := Float (333 # 10);
                  event_count := 1 |})].
Proof. reflexivity. Qed.

(** With history, the average of 1000.5 and 2000 is 1500.25 = 6001/4. *)
Example cost_analysis_with_history :
  jget "historical_waste_avg_usd"
    (compute_cost_analysis "SHP-001-1" sample_dir)
  = Some (jnum (Float (6001 # 4))) /\
  jpath ["scenarios"; "reject_reship"; "total_cost_usd"]
    (compute_cost_analysis "SHP-001-1" sample_dir)
  = Some (jnum (Float (10801 # 4))).
Proof. split; reflexivity. Qed.

(** * Further properties *)

(** ** [query_data_source]: shape, filters, names and limits *)

(** X1. Every answer of [query_data_source] has a [results] list.  It is
    either an error document, whose list is empty and which has no
    [source_file], or a successful one without [error], whose
    [total_records] is the length of the list and whose [columns] and
    [source_file] are present. *)
Theorem query_document_shape (source_name : string)
    (filters : option (dict filter_value)) (data_dir : directory)
    (limit : option Z) :
  let doc := query_data_source source_name filters data_dir limit in
  exists items,
    jget "results" doc = Some (JArr items) /\
    ((exists msg,
         jget "error" doc = Some (jstr msg) /\ items = [] /\
         jget "source_file" doc = None /\ jget "total_records" doc = None)
     \/
     (jget "error" doc = None /\
      jget "total_records" doc = Some (jint (Z.of_nat (length items))) /\
      (exists path, jget "source_file" doc = Some (jstr path)) /\
      (exists cols, jget "columns" doc = Some (JArr (map jstr cols))))).
Proof.
  intros doc. subst doc. unfold query_data_source.
  destruct (listing data_dir) as [files |];
    [| exists []; split; [reflexivity | left; eexists; repeat split]].
  destruct (find_csv_files source_name files) as [| f rest];
    [exists []; split; [reflexivity | left; eexists; repeat split] |].
  destruct (content f) as [e | df];
    [exists []; split; [reflexivity | left; eexists; repeat split] |].
  destruct (apply_filters _ _ _) as [col | rws];
    [exists []; split; [reflexivity | left; eexists; repeat split] |].
  eexists. split; [reflexivity |]. right.
  split; [reflexivity |]. split; [now rewrite length_map |].
  split; eexists; reflexivity.
Qed.

Lemma filter_filter {A : Type} (f g : A -> bool) (l : list A) :
  filter g (filter f l) = filter (fun x => f x && g x) l.
Proof.
  induction l as [| x l IH]; simpl; [reflexivity |].
  destruct (f x); simpl; [destruct (g x) |]; now rewrite IH.
Qed.

(** With known keys the filter loop keeps the rows that pass every
    filter. *)
Lemma apply_filters_known (cols : list string) (filters : dict filter_value) :
  forall rws,
    known_filters cols filters = true ->
    apply_filters cols rws filters =
    inr (filter (passes_filters cols filters) rws).
Proof.
  induction filters as [| [col val] rest IH]; intros rws Hknown; simpl.
  - f_equal. induction rws as [| r rws IHr]; simpl; [reflexivity |].
    now rewrite <- IHr.
  - simpl in Hknown. apply andb_true_iff in Hknown.
    destruct Hknown as [Hcol Hrest]. rewrite Hcol, (IH _ Hrest).
    now rewrite filter_filter.
Qed.

Lemma apply_filters_inr_known (cols : list string)
    (filters : dict filter_value) :
  forall rws out,
    apply_filters cols rws filters = inr out ->
    known_filters cols filters = true.
Proof.
  induction filters as [| [col val] rest IH]; intros rws out H; simpl in *;
    [reflexivity |].
  destruct (has_column col cols); [| discriminate H].
  simpl. now apply IH in H.
Qed.



Lemma forallb_perm {A : Type} (p : A -> bool) (l l' : list A) :
  Permutation l l' -> forallb p l = forallb p l'.
Proof.
  intros Hp. induction Hp; simpl.
  - reflexivity.
  - now rewrite IHHp.
  - destruct (p x), (p y); reflexivity.
  - congruence.
Qed.

(** X3. The order in which the filters are given does not matter: on a
    loaded source with known filter keys, permuting the filter mapping
    leaves the whole answer unchanged. *)
Theorem query_filters_commute (source_name : string)
    (filters filters' : dict filter_value) (data_dir : directory)
    (limit : option Z)
    (files rest : list csv_file) (f : csv_file) (df : DataFrame) :
  listing data_dir = Some files ->
  find_csv_files source_name files = f :: rest ->
  content f = ReadOk df ->
  known_filters (columns df) filters = true ->
  Permutation filters filters' ->
  query_data_source source_name (Some filters) data_dir limit =
  query_data_source source_name (Some filters') data_dir limit.
Proof.
  intros Hdir Hfind Hread Hknown Hperm.
  assert (Hknown' : known_filters (columns df) filters' = true).
  { unfold known_filters in *. now rewrite <- (forallb_perm _ _ _ Hperm). }
  rewrite !(query_loaded _ _ _ limit _ _ _ _ Hdir Hfind Hread).
  rewrite (apply_filters_known _ _ _ Hknown),
    (apply_filters_known _ _ _ Hknown').
  assert (Heq : filter (passes_filters (columns df) filters) (rows df) =
                filter (passes_filters (columns df) filters') (rows df)).
  { apply filter_ext. intros row. unfold passes_filters.
    now apply forallb_perm. }
  now rewrite Heq.
Qed.

Lemma query_filters_commute_witness :
  query_data_source "finance_waste_log"
    (Some [("event_type", Scalar (VStr "Quarantine"));
           ("shipment_id", Scalar (VStr "SHP-000-2"))])
    sample_dir (Some 5%Z) =
  query_data_source "finance_waste_log"
    (Some [("shipment_id", Scalar (VStr "SHP-000-2"));
           ("event_type", Scalar (VStr "Quarantine"))])
    sample_dir (Some 5%Z).
Proof.
  apply (query_filters_commute "finance_waste_log"
           [("event_type", Scalar (VStr "Quarantine"));
            ("shipment_id", Scalar (VStr "SHP-000-2"))]
           [("shipment_id", Scalar (VStr "SHP-000-2"));
            ("event_type", Scalar (VStr "Quarantine"))]
           sample_dir (Some 5%Z)
           _ _ _ sample_waste eq_refl eq_refl eq_refl eq_refl).
  apply perm_swap.
Defined.

(** X4. Filtering is idempotent: rows that came out of the filter loop
    pass it unchanged a second time. *)
Theorem apply_filters_idempotent (cols : list string)
    (filters : dict filter_value) (rws out : list (list value)) :
  apply_filters cols rws filters = inr out ->
  apply_filters cols out filters = inr out.
Proof.
  intros H. pose proof (apply_filters_inr_known _ _ _ _ H) as Hknown.
  rewrite (apply_filters_known _ _ _ Hknown) in H. injection H as <-.
  rewrite (apply_filters_known _ _ _ Hknown), filter_filter. f_equal.
  apply filter_ext. intros row. now destruct (passes_filters cols filters row).
Qed.

Lemma apply_filters_idempotent_witness :
  apply_filters (columns sample_alerts)
    [[VStr "SHP-001-1"; VStr "2024-01-05T10:00"; VNum (Float (92 # 10))]]
    (shipment_filter "SHP-001-1")
  = inr [[VStr "SHP-001-1"; VStr "2024-01-05T10:00";
          VNum (Float (92 # 10))]].
Proof.
  apply (apply_filters_idempotent (columns sample_alerts)
           (shipment_filter "SHP-001-1") (rows sample_alerts)).
  reflexivity.
Defined.




Lemma apply_limit_prefix {A : Type} (limit : option Z) (l : list A) :
  exists cut, apply_limit limit l ++ cut = l.
Proof.
  destruct limit as [n |]; simpl; [| exists []; apply app_nil_r].
  destruct (n =? 0)%Z; [exists []; apply app_nil_r |].
  unfold head. destruct (0 <=? n)%Z; eexists; apply firstn_skipn.
Qed.

(** X6. A limit never reorders or invents records: the limited answer
    is a prefix of the unlimited one, and a positive limit [n] leaves at
    most [n] records. *)
Theorem query_limit_prefix (source_name : string)
    (filters : option (dict filter_value)) (data_dir : directory)
    (n : Z) :
  (0 < n)%Z ->
  (exists cut,
      results_of (query_data_source source_name filters data_dir (Some n))
        ++ cut
      = results_of (query_data_source source_name filters data_dir None)) /\
  (Z.of_nat
     (length
        (results_of (query_data_source source_name filters data_dir (Some n))))
   <= n)%Z.
Proof.
  intros Hpos. rewrite results_of_query_limit.
  split; [apply apply_limit_prefix |].
  pose proof (head_length n
                (results_of
                   (query_data_source source_name filters data_dir None)))
    as Hlen.
  unfold apply_limit. destruct (n =? 0)%Z eqn:E; [lia |].
  specialize (Hlen ltac:(lia)). lia.
Qed.

Lemma query_limit_prefix_witness :
  (Z.of_nat
     (length
        (results_of (query_data_source "finance_waste_log" None sample_dir
                       (Some 2%Z))))
   <= 2)%Z.
Proof.
  apply (query_limit_prefix "finance_waste_log" None sample_dir 2).
  reflexivity.
Defined.

Lemma keys_combine (cols : list string) :
  forall row : list value,
    length row = length cols -> dict_keys (combine cols row) = cols.
Proof.
  unfold dict_keys.
  induction cols as [| c cols IH]; intros [| v row] Hlen; simpl in *;
    try reflexivity; try discriminate.
  f_equal. apply IH. lia.
Qed.

Lemma apply_filters_subset (cols : list string)
    (filters : dict filter_value) :
  forall rws out row,
    apply_filters cols rws filters = inr out -> In row out -> In row rws.
Proof.
  induction filters as [| [col val] rest IH]; intros rws out row H Hin;
    simpl in H.
  - now injection H as <-.
  - destruct (has_column col cols); [| discriminate H].
    apply (IH _ _ _ H) in Hin. apply filter_In in Hin. tauto.
Qed.

Lemma apply_limit_subset {A : Type} (limit : option Z) (l : list A) (x : A) :
  In x (apply_limit limit l) -> In x l.
Proof.
  destruct (apply_limit_prefix limit l) as [cut Hcut].
  intros Hin. rewrite <- Hcut. apply in_or_app. now left.
Qed.

(** X7. The records of an answer carry the schema of the table: when the
    rows of the loaded table have one cell per column, every returned
    record has exactly the columns of the table as its keys, in the
    order of the header, which is also the [columns] field of the
    answer. *)
Theorem query_records_carry_schema (source_name : string)
    (filters : dict filter_value) (data_dir : directory) (limit : option Z)
    (files rest : list csv_file) (f : csv_file) (df : DataFrame)
    (r : record) :
  listing data_dir = Some files ->
  find_csv_files source_name files = f :: rest ->
  content f = ReadOk df ->
  Forall (fun row => length row = length (columns df)) (rows df) ->
  In r (results_of
          (query_data_source source_name (Some filters) data_dir limit)) ->
  dict_keys r = columns df /\
  jget "columns"
    (query_data_source source_name (Some filters) data_dir limit)
  = Some (JArr (map jstr (columns df))).
Proof.
  intros Hdir Hfind Hread Hwidth.
  rewrite (query_loaded _ _ _ limit _ _ _ _ Hdir Hfind Hread).
  destruct (apply_filters (columns df) (rows df) filters) as [col | rws] eqn:Hf;
    [intros [] |].
  cbn [results_of jget dict_get String.eqb Ascii.eqb Bool.eqb].
  rewrite records_roundtrip. unfold to_dict_records.
  rewrite in_map_iff. intros [row [<- Hrow]]. split; [| reflexivity].
  apply keys_combine. rewrite Forall_forall in Hwidth. apply Hwidth.
  apply (apply_filters_subset _ _ _ _ _ Hf).
  now apply apply_limit_subset in Hrow.
Qed.

Lemma query_records_carry_schema_witness :
  dict_keys [("shipment_id", VStr "SHP-001-2");
             ("timestamp", VStr "2024-01-05T11:00");
             ("temp_c", VNum (Float (41 # 10)))]
  = ["shipment_id"; "timestamp"; "temp_c"].
Proof.
  apply (query_records_carry_schema "sensor_alerts"
           (shipment_filter "SHP-001-2") sample_dir None
           _ _ _ sample_alerts _ eq_refl eq_refl eq_refl).
  - repeat constructor.
  - left. reflexivity.
Defined.

(** ** [compute_accountability]: counts, bounds and owners *)

Lemma sum_event_count_entries (total : Z) (d : dict Z) :
  sum_event_count (map (fun oc => (fst oc, entry_of total (snd oc))) d) =
  sum_values d.
Proof.
  unfold sum_event_count, sum_values, dict_values.
  induction d as [| [k c] d IH]; simpl; [reflexivity | now rewrite IH].
Qed.

Lemma accountability_count_sum (events : list event) :
  sum_event_count (compute_accountability events) =
  Z.of_nat (length events).
Proof.
  rewrite compute_accountability_unfold.
  destruct (Z.of_nat (length events) =? 0)%Z eqn:E.
  - apply Z.eqb_eq in E. now rewrite E.
  - now rewrite sum_event_count_entries, count_owners_sum.
Qed.

(** X8. The event counts of the entries add up to the number of events:
    every event is attributed to exactly one owner. *)
Theorem accountability_counts_all_events (events : list event) :
  sum_event_count (compute_accountability events) =
  Z.of_nat (length events).
Proof. apply accountability_count_sum. Qed.


Lemma count_owner_pos_iff (owner : string) (events : list event) :
  (count_owner owner events =? 0)%Z = false <->
  In owner (map get_owner events).
Proof.
  unfold count_owner. rewrite Z.eqb_neq, in_map_iff. split.
  - intros Hne.
    destruct (filter (fun e => get_owner e =? owner) events) as [| e l] eqn:Hf;
      [simpl in Hne; lia |].
    assert (Hin : In e (filter (fun e => get_owner e =? owner) events))
      by (rewrite Hf; now left).
    apply filter_In in Hin. destruct Hin as [Hin Heq].
    apply String.eqb_eq in Heq. now exists e.
  - intros [e [Heq Hin]] Hzero.
    assert (Hf : In e (filter (fun e => get_owner e =? owner) events)).
    { apply filter_In. split; [exact Hin |]. now apply String.eqb_eq. }
    destruct (filter (fun e => get_owner e =? owner) events);
      [destruct Hf | simpl in Hzero; lia].
Qed.





(** X10. The owners of the mapping are exactly the owners that occur in
    the event list, an event without [owner] counting as [Unknown]. *)
Theorem accountability_owners (events : list event) (owner : string) :
  dict_get owner (compute_accountability events) <> None <->
  In owner (map get_owner events).
Proof.
  rewrite compute_accountability_get, <- count_owner_pos_iff.
  destruct (count_owner owner events =? 0)%Z; split; congruence.
Qed.

(** ** The sort: when it succeeds *)

Section SortedKinds.
Context {A : Type}.
Variable key : A -> value.





End SortedKinds.

(** ** [analyze_shipment_timeline]: events, failures and coupling *)


Section TimelineMore.
Variable float_repr : Q -> string.

Lemma collected_event (shipment_id : string) (data_dir : directory)
    (e : event) :
  In e (collect_events float_repr shipment_id data_dir) ->
  In (ev_source e) sources_to_check /\
  dict_get "shipment_id" (ev_data e) = Some (VStr shipment_id) /\
  ev_owner e = Some (resolve_owner float_repr (ev_data e)) /\
  ev_timestamp e = resolve_timestamp (ev_data e).
Proof.
  unfold collect_events. rewrite in_flat_map.
  intros [source_name [Hsrc Hin]]. apply in_map_iff in Hin.
  destruct Hin as [r [<- Hr]]. cbn [make_event ev_source ev_data ev_owner
                                     ev_timestamp].
  repeat split; [exact Hsrc |].
  apply cell_eq_string.
  now apply query_results_match with source_name data_dir None.
Qed.

Lemma timeline_subset (shipment_id : string) (data_dir : directory)
    (events : list event) (e : event) :
  build_timeline float_repr shipment_id data_dir = ok events ->
  In e events ->
  In e (collect_events float_repr shipment_id data_dir).
Proof.
  unfold build_timeline. intros Hbuild Hin.
  apply py_sorted_perm in Hbuild.
  apply (Permutation_in _ (Permutation_sym Hbuild)) in Hin.
  unfold with_timestamp in Hin. apply filter_In in Hin. tauto.
Qed.

(** X11. Every event of the returned timeline comes from one of the five
    sources, belongs to the requested shipment (its record holds that
    [shipment_id]), and always carries an owner and the timestamp
    resolved from its own record. *)
Theorem timeline_events_of_shipment (shipment_id : string)
    (data_dir : directory) :
  exists timeline,
    jget "timeline"
      (analyze_shipment_timeline float_repr shipment_id data_dir)
      = Some (JArr (map json_of_event timeline)) /\
    forall e, In e timeline ->
      In (ev_source e) sources_to_check /\
      dict_get "shipment_id" (ev_data e) = Some (VStr shipment_id) /\
      ev_owner e = Some (resolve_owner float_repr (ev_data e)) /\
      ev_timestamp e = resolve_timestamp (ev_data e).
Proof.
  destruct (analyze_timeline_cases float_repr shipment_id data_dir)
    as [[events [Hbuild ->]] | [err [Hbuild ->]]].
  - exists events. split; [reflexivity |]. intros e He.
    apply (collected_event shipment_id data_dir).
    now apply (timeline_subset _ _ events).
  - exists []. split; [reflexivity | intros e []].
Qed.

(** X12. Sources that yield no record for the shipment (missing
    directory, missing file, unknown column or no matching row) are not
    an error: when none of the five yields one, the answer is the
    successful document of an empty timeline. *)
Theorem timeline_without_records (shipment_id : string)
    (data_dir : directory) :
  (forall source_name,
      In source_name sources_to_check ->
      results_of
        (query_data_source source_name (Some (shipment_filter shipment_id))
           data_dir None) = []) ->
  analyze_shipment_timeline float_repr shipment_id data_dir =
  empty_timeline shipment_id.
Proof.
  intros Hnone.
  assert (Hcollect : collect_events float_repr shipment_id data_dir = []).
  { unfold collect_events.
    induction sources_to_check as [| source_name rest IH]; [reflexivity |].
    cbn [flat_map]. rewrite (Hnone source_name (or_introl eq_refl)).
    cbn [map app]. apply IH. intros s Hs. apply Hnone. now right. }
  unfold analyze_shipment_timeline, build_timeline.
  now rewrite Hcollect.
Qed.


(** X14. Accountability is computed over the returned timeline itself:
    in a successful answer the [accountability] field is the mapping of
    the timeline's events, and its event counts add up to
    [total_events]. *)
Theorem timeline_accountability_coupled (shipment_id : string)
    (data_dir : directory) :
  let doc := analyze_shipment_timeline float_repr shipment_id data_dir in
  jget "error" doc = None ->
  exists timeline,
    jget "timeline" doc = Some (JArr (map json_of_event timeline)) /\
    jget "accountability" doc =
      Some (json_of_accountability (compute_accountability timeline)) /\
    jget "total_events" doc =
      Some (jint (sum_event_count (compute_accountability timeline))).
Proof.
  intros doc. subst doc.
  destruct (analyze_timeline_cases float_repr shipment_id data_dir)
    as [[events [Hbuild ->]] | [err [Hbuild ->]]];
    [intros _ | intros H; discriminate H].
  exists events. split; [reflexivity |]. split; [reflexivity |].
  now rewrite accountability_count_sum.
Qed.
End TimelineMore.

Lemma timeline_without_records_witness :
  analyze_shipment_timeline sample_repr "SHP-001-1" sample_dir_missing =
  empty_timeline "SHP-001-1".
Proof.
  apply (timeline_without_records sample_repr "SHP-001-1"
           sample_dir_missing).
  intros source_name _. reflexivity.
Defined.

Lemma timeline_accountability_coupled_witness :
  exists timeline,
    jget "total_events"
      (analyze_shipment_timeline sample_repr "SHP-001-1" sample_dir)
    = Some (jint (sum_event_count (compute_accountability timeline))).
Proof.
  destruct (timeline_accountability_coupled sample_repr "SHP-001-1"
              sample_dir eq_refl) as [timeline [_ [_ Htotal]]].
  now exists timeline.
Defined.

Example timeline_mixed_timestamps_fail :
  analyze_shipment_timeline sample_repr "SHP-001-1" sample_dir_mixed =
  JObj [("error",
         jstr ("Error building timeline: "
                 ++ "'<' not supported between instances of 'int' and 'str'"));
        ("shipment_id", jstr "SHP-001-1");
        ("timeline", JArr [])].
Proof. reflexivity. Qed.

(** ** [compute_cost_analysis]: when it succeeds and what it uses *)



(** The records found for the shipment, as the analysis reads them. *)
Lemma cost_analysis_shipment_query (shipment_id : string)
    (data_dir : directory) :
  results_of
    (query_data_source "logistics_shipments"
       (Some (shipment_filter shipment_id)) data_dir (Some 1%Z)) =
  firstn 1 (shipment_records shipment_id data_dir).
Proof. now rewrite results_of_query_limit. Qed.



(** X16. The scenarios do not depend on the shipment: any two
    successful analyses over the same data directory have the same
    [scenarios] and the same [historical_waste_avg_usd], whatever the
    shipment identifiers. *)
Theorem cost_scenarios_ignore_shipment (id1 id2 : string)
    (data_dir : directory) :
  jget "error" (compute_cost_analysis id1 data_dir) = None ->
  jget "error" (compute_cost_analysis id2 data_dir) = None ->
  jget "scenarios" (compute_cost_analysis id1 data_dir) =
  jget "scenarios" (compute_cost_analysis id2 data_dir) /\
  jget "historical_waste_avg_usd" (compute_cost_analysis id1 data_dir) =
  jget "historical_waste_avg_usd" (compute_cost_analysis id2 data_dir).
Proof.
  unfold compute_cost_analysis.
  destruct (results_of
              (query_data_source "logistics_shipments"
                 (Some (shipment_filter id1)) data_dir (Some 1%Z)));
    [intros H; discriminate H |].
  destruct (results_of
              (query_data_source "logistics_shipments"
                 (Some (shipment_filter id2)) data_dir (Some 1%Z)));
    [intros _ H; discriminate H |].
  destruct (average_waste _) as [e | avg]; [intros H; discriminate H |].
  intros _ _. split; reflexivity.
Qed.

Lemma cost_scenarios_ignore_shipment_witness :
  jget "scenarios" (compute_cost_analysis "SHP-001-1" sample_dir) =
  jget "scenarios" (compute_cost_analysis "SHP-001-2" sample_dir).
Proof.
  apply (cost_scenarios_ignore_shipment "SHP-001-1" "SHP-001-2" sample_dir);
    reflexivity.
Defined.



(** ** [discover_available_sources] *)



Lemma prefix_refl (s : string) : String.prefix s s = true.
Proof.
  induction s as [| c s IH]; simpl; [reflexivity |].
  destruct (ascii_dec c c); [exact IH | congruence].
Qed.

Lemma contains_refl (s : string) : contains s s = true.
Proof. destruct s; cbn [contains]; now rewrite prefix_refl. Qed.



Section CatalogFacts.
Variable relative_path : csv_file -> string.
Variable parent_name : csv_file -> string.
Variable read_first_row : csv_file -> read_result.


Lemma entry_name (f : csv_file) :
  jget "name" (source_entry relative_path parent_name read_first_row f)
  = Some (jstr (stem f)).
Proof.
  unfold source_entry. destruct (read_first_row f); reflexivity.
Qed.

(** X18. The catalog never fails as a whole: for an existing directory
    the answer has no [error], lists one entry per CSV file in the order
    of the listing, each named by the stem of its file, and
    [total_sources] is their number, however many files are
    unreadable. *)
Theorem catalog_lists_every_file (data_dir : directory)
    (files : list csv_file) :
  listing data_dir = Some files ->
  jget "error" (discover_available_sources relative_path parent_name
       read_first_row data_dir) = None /\
  jget "total_sources" (discover_available_sources relative_path parent_name
       read_first_row data_dir)
    = Some (jint (Z.of_nat (length files))) /\
  exists entries,
    jget "sources" (discover_available_sources relative_path parent_name
       read_first_row data_dir) = Some (JArr entries) /\
    length entries = length files /\
    map (jget "name") entries = map (fun f => Some (jstr (stem f))) files.
Proof.
  intros Hdir. unfold discover_available_sources. rewrite Hdir.
  split; [reflexivity |]. split; [now rewrite length_map |].
  eexists. split; [reflexivity |]. split; [apply length_map |].
  rewrite map_map. apply map_ext. intros f. apply entry_name.
Qed.

(** X19. A file that cannot be read costs only its own entry: the entry
    of an unreadable file holds an [error] and neither [columns] nor
    [sample_record], the entry of a readable file holds its columns and a
    sample and no [error]; in both cases the entry depends on that file
    alone. *)
Theorem catalog_isolates_unreadable_files (data_dir : directory)
    (files : list csv_file) :
  listing data_dir = Some files ->
  exists entries,
    jget "sources" (discover_available_sources relative_path parent_name
       read_first_row data_dir) = Some (JArr entries) /\
    Forall2
      (fun f e =>
         e = source_entry relative_path parent_name read_first_row f /\
         match read_first_row f with
         | ReadError err =>
             jget "error" e = Some (jstr ("Could not read: " ++ exn_str err))
             /\ jget "columns" e = None /\ jget "sample_record" e = None
         | ReadOk df =>
             jget "error" e = None /\
             jget "columns" e = Some (JArr (map jstr (columns df))) /\
             exists sample, jget "sample_record" e = Some sample
         end)
      files entries.
Proof.
  intros Hdir. unfold discover_available_sources. rewrite Hdir.
  eexists. split; [reflexivity |].
  clear Hdir. induction files as [| f files IH]; simpl; constructor;
    [| exact IH].
  split; [reflexivity |]. unfold source_entry.
  destruct (read_first_row f) as [err | df]; repeat split.
  eexists. reflexivity.
Qed.


(** X21. A listed name is never reported as not found: whatever the
    other files are, the candidate files for the stem of a listed file
    are not empty. *)
Theorem catalog_names_found (files : list csv_file) (f : csv_file) :
  In f files -> find_csv_files (stem f) files <> [].
Proof.
  intros Hin.
  assert (Hfallback :
            In f (filter (fun g => contains (lower (stem f)) (lower (stem g)))
                         files)).
  { apply filter_In. split; [exact Hin | apply contains_refl]. }
  unfold find_csv_files.
  destruct (rglob_name (csv_name_of (stem f)) files); [| discriminate].
  intros Hnil. rewrite Hnil in Hfallback. destruct Hfallback.
Qed.
End CatalogFacts.

Lemma catalog_lists_every_file_witness :
  jget "total_sources"
    (discover_available_sources sample_relative_path sample_parent_name
       sample_read_first_row sample_dir_broken)
  = Some (jint 3).
Proof.
  apply (catalog_lists_every_file sample_relative_path sample_parent_name
           sample_read_first_row sample_dir_broken _ eq_refl).
Defined.

Lemma catalog_isolates_unreadable_files_witness :
  exists entries,
    jget "sources"
      (discover_available_sources sample_relative_path sample_parent_name
         sample_read_first_row sample_dir_broken) = Some (JArr entries) /\
    length entries = 3%nat.
Proof.
  destruct (catalog_isolates_unreadable_files sample_relative_path
              sample_parent_name sample_read_first_row sample_dir_broken
              _ eq_refl) as [entries [Hdoc Hall]].
  exists entries. split; [exact Hdoc |].
  apply Forall2_length in Hall. now rewrite <- Hall.
Defined.


Lemma catalog_names_found_witness :
  find_csv_files "broken"
    [sample_file "mock_data/iot/sensor_alerts.csv" "sensor_alerts"
                 sample_alerts;
     {| file_path := "mock_data/iot/broken.csv"; stem := "broken";
        content := ReadError (OtherError "No columns to parse from file") |}]
  <> [].
Proof.
  apply (catalog_names_found _
           {| file_path := "mock_data/iot/broken.csv"; stem := "broken";
              content :=
                ReadError (OtherError "No columns to parse from file") |}).
  right. left. reflexivity.
Defined.

(** ** [generate_compliance_report] *)

Section ReportFacts.
Variable date_stamp : string.
Variable report_date : string.
Variable signoff_date : string.

(** X22. The report reads seven keys of the findings and nothing else:
    two findings objects that agree on [summary], [timeline],
    [root_causes], [accountability], [recommendations],
    [corrective_actions] and [preventive_actions] give the same report,
    whatever else they hold and whatever the data directory is. *)
Theorem report_reads_seven_keys (shipment_id : string)
    (fields fields' : dict json) (data_dir data_dir' : directory) :
  (forall key, In key report_keys ->
               dict_get key fields = dict_get key fields') ->
  generate_compliance_report date_stamp report_date signoff_date
    shipment_id (JObj fields) data_dir =
  generate_compliance_report date_stamp report_date signoff_date
    shipment_id (JObj fields') data_dir'.
Proof.
  intros Hagree. unfold generate_compliance_report, jget_default, jget.
  rewrite (Hagree "summary"), (Hagree "timeline"), (Hagree "root_causes"),
    (Hagree "accountability"), (Hagree "recommendations"),
    (Hagree "corrective_actions"), (Hagree "preventive_actions")
    by (simpl; tauto).
  reflexivity.
Qed.

(** X23. Only a findings object makes a report: the answer is free of
    [error] exactly when the findings are an object, and then it is a
    draft that asks for approval, with the document identifier
    [CAPA-<shipment>-<date>] and unsigned review and approval, whatever
    the findings say; any other value gets the error document with the
    shipment identifier. *)
Theorem report_is_draft_or_error (shipment_id : string)
    (investigation_data : json) (data_dir : directory) :
  let report :=
    generate_compliance_report date_stamp report_date signoff_date
      shipment_id investigation_data data_dir in
  (jget "error" report = None <->
   exists fields, investigation_data = JObj fields) /\
  (jget "error" report = None ->
   jpath ["header"; "status"] report = Some (jstr "Draft") /\
   jpath ["header"; "document_id"] report
     = Some (jstr ("CAPA-" ++ shipment_id ++ "-" ++ date_stamp)) /\
   jget "approval_required" report = Some (JVal (VBool true)) /\
   jpath ["signoff"; "reviewed_by"; "date"] report = Some (JVal VNone) /\
   jpath ["signoff"; "approved_by"; "date"] report = Some (JVal VNone)) /\
  (jget "error" report <> None ->
   jkeys report = ["error"; "shipment_id"] /\
   jget "shipment_id" report = Some (jstr shipment_id)).
Proof.
  intros report. subst report.
  destruct investigation_data as [v | items | fields]; cbn.
  - repeat split; try congruence; try discriminate.
    intros [fields H]. discriminate H.
  - repeat split; try congruence; try discriminate.
    intros [fields H]. discriminate H.
  - repeat split; try congruence; eauto.
Qed.
End ReportFacts.

Section ReportOfTimeline.
Variable float_repr : Q -> string.
Variable date_stamp : string.
Variable report_date : string.
Variable signoff_date : string.

(** X24. The timeline answer can be handed to the report as it is: the
    report of a successful [analyze_shipment_timeline] document carries
    the timeline and the accountability of that document unchanged, the
    default summary, and empty lists for the findings that the timeline
    does not provide. *)
Theorem report_of_timeline (shipment_id : string) (data_dir : directory) :
  let doc := analyze_shipment_timeline float_repr shipment_id data_dir in
  let report :=
    generate_compliance_report date_stamp report_date signoff_date
      shipment_id doc data_dir in
  jget "error" doc = None ->
  jget "error" report = None /\
  jget "timeline" report = jget "timeline" doc /\
  jget "accountability" report = jget "accountability" doc /\
  jget "investigation_summary" report
    = Some (jstr "Investigation complete") /\
  jget "root_cause_analysis" report = Some (JArr []) /\
  jget "recommendations" report = Some (JArr []).
Proof.
  intros doc report. subst doc report.
  destruct (analyze_timeline_cases float_repr shipment_id data_dir)
    as [[events [Hbuild ->]] | [err [Hbuild ->]]];
    [intros _ | intros H; discriminate H].
  repeat split.
Qed.
End ReportOfTimeline.

Lemma report_reads_seven_keys_witness :
  generate_compliance_report "20240105" "2024-01-05T10:00:00"
    "2024-01-05T10:00:01" "SHP-001-1"
    (JObj [("summary", jstr "Excursion"); ("note", jstr "ignored")])
    sample_dir =
  generate_compliance_report "20240105" "2024-01-05T10:00:00"
    "2024-01-05T10:00:01" "SHP-001-1"
    (JObj [("summary", jstr "Excursion")])
    sample_dir_missing.
Proof.
  apply (report_reads_seven_keys "20240105" "2024-01-05T10:00:00"
           "2024-01-05T10:00:01" "SHP-001-1").
  intros key Hkey. simpl in Hkey.
  repeat (destruct Hkey as [<- | Hkey]; [reflexivity |]). destruct Hkey.
Defined.

Lemma report_is_draft_or_error_witness :
  jkeys (generate_compliance_report "20240105" "2024-01-05T10:00:00"
           "2024-01-05T10:00:01" "SHP-001-1" (JArr []) sample_dir)
  = ["error"; "shipment_id"].
Proof.
  destruct (report_is_draft_or_error "20240105" "2024-01-05T10:00:00"
              "2024-01-05T10:00:01" "SHP-001-1" (JArr []) sample_dir)
    as [_ [_ Herror]].
  apply Herror. discriminate.
Defined.

Lemma report_of_timeline_witness :
  jget "timeline"
    (generate_compliance_report "20240105" "2024-01-05T10:00:00"
       "2024-01-05T10:00:01" "SHP-001-1"
       (analyze_shipment_timeline sample_repr "SHP-001-1" sample_dir)
       sample_dir)
  = jget "timeline"
      (analyze_shipment_timeline sample_repr "SHP-001-1" sample_dir).
Proof.
  apply (report_of_timeline sample_repr "20240105" "2024-01-05T10:00:00"
           "2024-01-05T10:00:01" "SHP-001-1" sample_dir eq_refl).
Defined.

(** ** [PharmaDataWorkbench.call_tool] *)

Section WorkbenchFacts.
Variable relative_path : csv_file -> string.
Variable parent_name : csv_file -> string.
Variable read_first_row : csv_file -> read_result.
Variable float_repr : Q -> string.
Variable date_stamp : string.
Variable report_date : string.
Variable signoff_date : string.
Variable data_dir : directory.

(** X25. The workbench answers [Unknown tool] exactly for the names
    that its schema list does not declare: every declared tool is
    routed, every other name gets that error result, whatever the
    arguments. *)
Theorem call_tool_unknown_iff (name : string)
    (arguments : option (dict json)) :
  call_tool relative_path parent_name read_first_row float_repr date_stamp
    report_date signoff_date data_dir name arguments
  = tool_fails name ("Unknown tool: " ++ name)
  <-> ~ In name (map fst tool_required).
Proof.
  unfold call_tool. split.
  - intros Hres Hin. simpl in Hin.
    destruct Hin as [<- | [<- | [<- | [<- | [<- | []]]]]];
      cbn [String.eqb Ascii.eqb Bool.eqb] in Hres;
      unfold tool_returns, key_error, tool_fails in Hres;
      repeat match type of Hres with
             | context [match ?x with _ => _ end] => destruct x
             end;
      discriminate Hres.
  - intros Hnot. simpl in Hnot.
    destruct (name =? "discover_available_sources") eqn:E1;
      [apply String.eqb_eq in E1; subst name; exfalso; apply Hnot; auto 10 |].
    destruct (name =? "query_data_source") eqn:E2;
      [apply String.eqb_eq in E2; subst name; exfalso; apply Hnot; auto 10 |].
    destruct (name =? "analyze_shipment_timeline") eqn:E3;
      [apply String.eqb_eq in E3; subst name; exfalso; apply Hnot; auto 10 |].
    destruct (name =? "compute_cost_analysis") eqn:E4;
      [apply String.eqb_eq in E4; subst name; exfalso; apply Hnot; auto 10 |].
    destruct (name =? "generate_compliance_report") eqn:E5;
      [apply String.eqb_eq in E5; subst name; exfalso; apply Hnot; auto 10 |].
    reflexivity.
Qed.

(** X26. What the schemas declare as required is required: calling a
    declared tool without one of its required arguments (or without any
    arguments) gives an error result, never a document. *)
Theorem call_tool_requires_arguments (name key : string)
    (required : list string) (arguments : option (dict json)) :
  In (name, required) tool_required ->
  In key required ->
  dict_get key (match arguments with Some a => a | None => [] end) = None ->
  exists msg,
    call_tool relative_path parent_name read_first_row float_repr date_stamp
      report_date signoff_date data_dir name arguments
    = tool_fails name msg.
Proof.
  intros Htool Hkey Hmissing. unfold call_tool. simpl in Htool.
  destruct Htool as [H | [H | [H | [H | [H | []]]]]];
    injection H as <- <-; simpl in Hkey;
    cbn [String.eqb Ascii.eqb Bool.eqb].
  - destruct Hkey.
  - destruct Hkey as [<- | []]. rewrite Hmissing. eauto.
  - destruct Hkey as [<- | []]. rewrite Hmissing. unfold key_error. eauto.
  - destruct Hkey as [<- | []]. rewrite Hmissing. unfold key_error. eauto.
  - destruct Hkey as [<- | [<- | []]].
    + rewrite Hmissing. unfold key_error. eauto.
    + rewrite Hmissing. unfold key_error.
      destruct (dict_get "shipment_id" _); eauto.
Qed.

(** X27. An error document of a tool function is not an error of the
    workbench: for a shipment that the shipment source does not hold,
    the cost-analysis tool returns the [Shipment not found] document
    with [is_error] unset, over the workbench's own data directory. *)
Theorem call_tool_passes_error_documents (shipment_id : string)
    (arguments : dict json) :
  dict_get "shipment_id" arguments = Some (jstr shipment_id) ->
  shipment_records shipment_id data_dir = [] ->
  call_tool relative_path parent_name read_first_row float_repr date_stamp
    report_date signoff_date data_dir "compute_cost_analysis"
    (Some arguments)
  = Some {| tool_name := "compute_cost_analysis";
            tool_content :=
              Document (JObj [("error", jstr "Shipment not found");
                              ("shipment_id", jstr shipment_id)]);
            is_error := false |}.
Proof.
  intros Harg Hnone. unfold call_tool.
  cbn [String.eqb Ascii.eqb Bool.eqb]. rewrite Harg.
  unfold jstr, tool_returns, compute_cost_analysis.
  now rewrite cost_analysis_shipment_query, Hnone.
Qed.
End WorkbenchFacts.

Lemma call_tool_requires_arguments_witness :
  exists msg,
    sample_call_tool "analyze_shipment_timeline" None
    = tool_fails "analyze_shipment_timeline" msg.
Proof.
  apply (call_tool_requires_arguments sample_relative_path
           sample_parent_name sample_read_first_row sample_repr
           "20240105" "2024-01-05T10:00:00" "2024-01-05T10:00:01"
           sample_dir "analyze_shipment_timeline" "shipment_id"
           ["shipment_id"] None).
  - right. right. left. reflexivity.
  - left. reflexivity.
  - reflexivity.
Defined.

Lemma call_tool_passes_error_documents_witness :
  sample_call_tool "compute_cost_analysis"
    (Some [("shipment_id", jstr "SHP-404"); ("data_dir", jstr "elsewhere")])
  = Some {| tool_name := "compute_cost_analysis";
            tool_content :=
              Document (JObj [("error", jstr "Shipment not found");
                              ("shipment_id", jstr "SHP-404")]);
            is_error := false |}.
Proof.
  apply (call_tool_passes_error_documents sample_relative_path
           sample_parent_name sample_read_first_row sample_repr
           "20240105" "2024-01-05T10:00:00" "2024-01-05T10:00:01"
           sample_dir "SHP-404"); reflexivity.
Defined.

Example call_tool_missing_shipment_id :
  sample_call_tool "compute_cost_analysis" (Some []) =
  Some {| tool_name := "compute_cost_analysis";
          tool_content := Text (error_text "'shipment_id'");
          is_error := true |}.
Proof. reflexivity. Qed.
